(** * A shallow embedding of the fake6502 CPU core of 6502Emu

    Sources embedded here:
    - [src/native/fake6502_old.h]  : [cpu_state_t], the callback types, the flag bits;
    - [src/native/fake6502_old.c]  : the self-contained simplified core (module [Old]);
    - [src/native/fake6502.c]      : the wrapper around the MyLittle6502 core
                                     (module [Wrap]); the wrapped core itself,
                                     [fake6502_improved.h], is not among the sources.

    Machine integers are [Z] with the wrap-around of each C type written out;
    the host's memory callbacks are functions over an abstract host world [W],
    so a bus read may have side effects. *)

From Stdlib Require Import ZArith List Lia Bool.
Import ListNotations.
Open Scope Z_scope.

(** ** C integer conversions *)

Definition u8  (v : Z) : Z := v mod 256.
Definition u16 (v : Z) : Z := v mod 65536.
Definition u32 (v : Z) : Z := v mod 4294967296.
Definition u64 (v : Z) : Z := v mod 18446744073709551616.

(** A C condition: any non-zero integer is true. *)
Definition c_true (v : Z) : bool := negb (v =? 0).

(** ** fake6502_old.h *)

(** Status flag bits *)
Definition FLAG_CARRY     : Z := 0x01.
Definition FLAG_ZERO      : Z := 0x02.
Definition FLAG_INTERRUPT : Z := 0x04.
Definition FLAG_DECIMAL   : Z := 0x08.
Definition FLAG_BREAK     : Z := 0x10.
Definition FLAG_CONSTANT  : Z := 0x20.
Definition FLAG_OVERFLOW  : Z := 0x40.
Definition FLAG_SIGN      : Z := 0x80.

(** CPU state structure *)
Record cpu_state_t : Type := mk_cpu {
  pc     : Z;  (* uint16_t *)
  sp     : Z;  (* uint8_t  *)
  a      : Z;  (* uint8_t  *)
  x      : Z;  (* uint8_t  *)
  y      : Z;  (* uint8_t  *)
  status : Z;  (* uint8_t  *)
  cycles : Z   (* uint64_t *)
}.

Definition set_pc (v : Z) (c : cpu_state_t) : cpu_state_t :=
  mk_cpu v (sp c) (a c) (x c) (y c) (status c) (cycles c).
Definition set_sp (v : Z) (c : cpu_state_t) : cpu_state_t :=
  mk_cpu (pc c) v (a c) (x c) (y c) (status c) (cycles c).
Definition set_a (v : Z) (c : cpu_state_t) : cpu_state_t :=
  mk_cpu (pc c) (sp c) v (x c) (y c) (status c) (cycles c).
Definition set_status (v : Z) (c : cpu_state_t) : cpu_state_t :=
  mk_cpu (pc c) (sp c) (a c) (x c) (y c) v (cycles c).
Definition set_cycles (v : Z) (c : cpu_state_t) : cpu_state_t :=
  mk_cpu (pc c) (sp c) (a c) (x c) (y c) (status c) v.

(** The values a [cpu_state_t] can hold: every field within its C type. *)
Definition cpu_wf (c : cpu_state_t) : Prop :=
  0 <= pc c < 65536 /\ 0 <= sp c < 256 /\ 0 <= a c < 256 /\
  0 <= x c < 256 /\ 0 <= y c < 256 /\ 0 <= status c < 256 /\
  0 <= cycles c < 18446744073709551616.

Definition in_range (lo v hi : Z) : bool := (lo <=? v) && (v <? hi).

Definition cpu_wfb (c : cpu_state_t) : bool :=
  in_range 0 (pc c) 65536 && in_range 0 (sp c) 256 && in_range 0 (a c) 256 &&
  in_range 0 (x c) 256 && in_range 0 (y c) 256 && in_range 0 (status c) 256 &&
  in_range 0 (cycles c) 18446744073709551616.

(** Memory access function pointers: a read takes a [uint16_t] address and
    returns a [uint8_t]; a write takes a [uint16_t] address and a [uint8_t]
    value.  Both act on the host world. *)
Definition read_func_t (W : Type) : Type := Z -> W -> Z * W.
Definition write_func_t (W : Type) : Type := Z -> Z -> W -> W.

(** ** A state monad for the code that threads the static variables *)

Definition State (S A : Type) : Type := S -> A * S.

Definition ret {S A : Type} (v : A) : State S A := fun s => (v, s).

Definition bind {S A B : Type} (m : State S A) (k : A -> State S B) : State S B :=
  fun s => let (v, s') := m s in k v s'.

Definition gets {S A : Type} (f : S -> A) : State S A := fun s => (f s, s).

Definition modify {S : Type} (f : S -> S) : State S unit := fun s => (tt, f s).

Declare Scope state_scope.
Delimit Scope state_scope with state.
Notation "v <- m ;; k" := (bind m (fun v => k))
  (at level 61, m at next level, right associativity) : state_scope.
Notation "m ;; k" := (bind m (fun _ => k))
  (at level 61, right associativity) : state_scope.

(** ** fake6502_old.c *)

Module Old.

Section Core.
Context {W : Type}.

(** The static variables of the translation unit, and the host world the
    callbacks act on. *)
Record emu : Type := mk_emu {
  cpu          : cpu_state_t;
  irq_pending  : Z;                       (* int *)
  nmi_pending  : Z;                       (* int *)
  memory_read  : option (read_func_t W);  (* None is NULL *)
  memory_write : option (write_func_t W);
  host         : W
}.

Definition with_cpu (c : cpu_state_t) (e : emu) : emu :=
  mk_emu c (irq_pending e) (nmi_pending e) (memory_read e) (memory_write e) (host e).
Definition with_irq (v : Z) (e : emu) : emu :=
  mk_emu (cpu e) v (nmi_pending e) (memory_read e) (memory_write e) (host e).
Definition with_nmi (v : Z) (e : emu) : emu :=
  mk_emu (cpu e) (irq_pending e) v (memory_read e) (memory_write e) (host e).
Definition with_host (w : W) (e : emu) : emu :=
  mk_emu (cpu e) (irq_pending e) (nmi_pending e) (memory_read e) (memory_write e) w.
Definition with_callbacks (r : option (read_func_t W)) (w : option (write_func_t W))
    (e : emu) : emu :=
  mk_emu (cpu e) (irq_pending e) (nmi_pending e) r w (host e).

Definition M (A : Type) : Type := State emu A.

Definition upd_cpu (f : cpu_state_t -> cpu_state_t) : M unit :=
  modify (fun e => with_cpu (f (cpu e)) e).

Local Open Scope state_scope.

(** Default memory functions (return 0xFF for reads, ignore writes) *)
Definition default_read (address : Z) : Z := 0xFF.

Definition default_write (address value : Z) : unit := tt.

(** Helper functions.  The argument is converted to the parameter's type
    ([uint16_t], [uint8_t]) and the callback's result to [uint8_t]. *)
Definition read6502 (address : Z) : M Z := fun e =>
  match memory_read e with
  | Some f => let r := f (u16 address) (host e) in (u8 (fst r), with_host (snd r) e)
  | None => (default_read (u16 address), e)
  end.

Definition write6502 (address value : Z) : M unit := fun e =>
  match memory_write e with
  | Some f => (tt, with_host (f (u16 address) (u8 value) (host e)) e)
  | None => (default_write (u16 address) (u8 value), e)
  end.

(** [read6502(address) | (read6502(address + 1) << 8)]; the two calls are
    taken left to right. *)
Definition read6502_word (address : Z) : M Z :=
  lo <- read6502 address ;;
  hi <- read6502 (address + 1) ;;
  ret (u16 (Z.lor lo (Z.shiftl hi 8))).

Definition push6502 (value : Z) : M unit :=
  s <- gets (fun e => sp (cpu e)) ;;
  write6502 (0x0100 + s) value ;;
  upd_cpu (fun c => set_sp (u8 (sp c - 1)) c).

Definition pull6502 : M Z :=
  upd_cpu (fun c => set_sp (u8 (sp c + 1)) c) ;;
  s <- gets (fun e => sp (cpu e)) ;;
  read6502 (0x0100 + s).

(** CPU control functions *)
Definition cpu_reset : M unit :=
  upd_cpu (fun _ => mk_cpu 0 0 0 0 0 0 0) ;;
  upd_cpu (set_sp 0xFF) ;;
  upd_cpu (set_status (Z.lor FLAG_CONSTANT FLAG_INTERRUPT)) ;;
  v <- read6502_word 0xFFFC ;;
  upd_cpu (set_pc v) ;;
  upd_cpu (set_cycles 0) ;;
  modify (with_irq 0) ;;
  modify (with_nmi 0).

(** [cpu_step], block by block.  Each [case] of its [switch (opcode)] is a
    definition of its own; the result is the value left in the local
    [cycles]. *)

(** [case 0x00: // BRK] *)
Definition op_brk : M Z :=
  upd_cpu (fun c => set_pc (u16 (pc c + 1)) c) ;;
  p <- gets (fun e => pc (cpu e)) ;;
  push6502 (Z.land (Z.shiftr p 8) 0xFF) ;;
  p <- gets (fun e => pc (cpu e)) ;;
  push6502 (Z.land p 0xFF) ;;
  st <- gets (fun e => status (cpu e)) ;;
  push6502 (Z.lor st FLAG_BREAK) ;;
  upd_cpu (fun c => set_status (u8 (Z.lor (status c) FLAG_INTERRUPT)) c) ;;
  v <- read6502_word 0xFFFE ;;
  upd_cpu (set_pc v) ;;
  ret 7.

(** [case 0x4C: // JMP absolute] *)
Definition op_jmp_abs : M Z :=
  p <- gets (fun e => pc (cpu e)) ;;
  v <- read6502_word p ;;
  upd_cpu (set_pc v) ;;
  ret 3.

(** [case 0x6C: // JMP indirect]; as in [read6502_word], the two reads of the
    page-boundary branch are taken left to right. *)
Definition op_jmp_ind : M Z :=
  p <- gets (fun e => pc (cpu e)) ;;
  addr <- read6502_word p ;;
  (* Handle page boundary bug in original 6502 *)
  (if Z.land addr 0xFF =? 0xFF then
     lo <- read6502 addr ;;
     hi <- read6502 (Z.land addr 0xFF00) ;;
     upd_cpu (set_pc (u16 (Z.lor lo (Z.shiftl hi 8))))
   else
     v <- read6502_word addr ;;
     upd_cpu (set_pc v)) ;;
  ret 5.

(** [case 0xA9: // LDA immediate] *)
Definition op_lda_imm : M Z :=
  p <- gets (fun e => pc (cpu e)) ;;
  upd_cpu (set_pc (u16 (p + 1))) ;;
  v <- read6502 p ;;
  upd_cpu (set_a v) ;;
  upd_cpu (fun c =>
    set_status (u8 (Z.land (status c) (Z.lnot (Z.lor FLAG_ZERO FLAG_SIGN)))) c) ;;
  acc <- gets (fun e => a (cpu e)) ;;
  (if acc =? 0
   then upd_cpu (fun c => set_status (u8 (Z.lor (status c) FLAG_ZERO)) c)
   else ret tt) ;;
  acc <- gets (fun e => a (cpu e)) ;;
  (if c_true (Z.land acc 0x80)
   then upd_cpu (fun c => set_status (u8 (Z.lor (status c) FLAG_SIGN)) c)
   else ret tt) ;;
  ret 2.

(** [case 0xEA: // NOP] *)
Definition op_nop : M Z := ret 2.

(** [case 0x40: // RTI] *)
Definition op_rti : M Z :=
  st <- pull6502 ;;
  upd_cpu (set_status st) ;;
  lo <- pull6502 ;;
  upd_cpu (set_pc lo) ;;
  hi <- pull6502 ;;
  upd_cpu (fun c => set_pc (u16 (Z.lor (pc c) (Z.shiftl hi 8))) c) ;;
  ret 6.

(** [default:] Unknown opcode - just advance PC *)
Definition op_unknown : M Z := ret 2.

(** [switch (opcode)] *)
Definition cpu_step_switch (opcode : Z) : M Z := fun e =>
  if opcode =? 0x00 then op_brk e
  else if opcode =? 0x4C then op_jmp_abs e
  else if opcode =? 0x6C then op_jmp_ind e
  else if opcode =? 0xA9 then op_lda_imm e
  else if opcode =? 0xEA then op_nop e
  else if opcode =? 0x40 then op_rti e
  else op_unknown e.

(** Handle NMI (highest priority): the body of [if (nmi_pending)]. *)
Definition handle_nmi : M Z :=
  p <- gets (fun e => pc (cpu e)) ;;
  push6502 (Z.land (Z.shiftr p 8) 0xFF) ;;
  p <- gets (fun e => pc (cpu e)) ;;
  push6502 (Z.land p 0xFF) ;;
  st <- gets (fun e => status (cpu e)) ;;
  push6502 st ;;
  upd_cpu (fun c => set_status (u8 (Z.lor (status c) FLAG_INTERRUPT)) c) ;;
  v <- read6502_word 0xFFFA ;;
  upd_cpu (set_pc v) ;;
  modify (with_nmi 0) ;;
  upd_cpu (fun c => set_cycles (u64 (cycles c + 7)) c) ;;
  ret 7.

(** Handle IRQ (if enabled): the body of
    [if (irq_pending && !(cpu.status & FLAG_INTERRUPT))]. *)
Definition handle_irq : M Z :=
  p <- gets (fun e => pc (cpu e)) ;;
  push6502 (Z.land (Z.shiftr p 8) 0xFF) ;;
  p <- gets (fun e => pc (cpu e)) ;;
  push6502 (Z.land p 0xFF) ;;
  st <- gets (fun e => status (cpu e)) ;;
  push6502 st ;;
  upd_cpu (fun c => set_status (u8 (Z.lor (status c) FLAG_INTERRUPT)) c) ;;
  v <- read6502_word 0xFFFE ;;
  upd_cpu (set_pc v) ;;
  modify (with_irq 0) ;;
  upd_cpu (fun c => set_cycles (u64 (cycles c + 7)) c) ;;
  ret 7.

(** Fetch instruction, execute it, account for its cycles: the rest of
    [cpu_step]. *)
Definition fetch_execute : M Z :=
  p <- gets (fun e => pc (cpu e)) ;;
  opcode <- read6502 p ;;
  upd_cpu (fun c => set_pc (u16 (pc c + 1)) c) ;;
  n <- cpu_step_switch opcode ;;
  upd_cpu (fun c => set_cycles (u64 (cycles c + n)) c) ;;
  ret n.

Definition cpu_step : M Z := fun e =>
  if c_true (nmi_pending e) then handle_nmi e
  else if c_true (irq_pending e)
          && negb (c_true (Z.land (status (cpu e)) FLAG_INTERRUPT))
  then handle_irq e
  else fetch_execute e.

(** [state] is the pointee before the call ([None] for a null pointer); the
    result is the pointee after it. *)
Definition cpu_get_state (state : option cpu_state_t) : M (option cpu_state_t) :=
  match state with
  | Some _ => c <- gets cpu ;; ret (Some c)
  | None => ret None
  end.

Definition cpu_set_state (state : option cpu_state_t) : M unit :=
  match state with
  | Some s => upd_cpu (fun _ => s)
  | None => ret tt
  end.

Definition cpu_set_memory_callbacks (read_func : option (read_func_t W))
    (write_func : option (write_func_t W)) : M unit :=
  modify (with_callbacks read_func write_func).

Definition cpu_trigger_irq : M unit := modify (with_irq 1).

Definition cpu_trigger_nmi : M unit := modify (with_nmi 1).

Definition cpu_clear_irq : M unit := modify (with_irq 0).

Definition cpu_is_irq_pending : M Z := gets irq_pending.

Definition cpu_is_nmi_pending : M Z := gets nmi_pending.

End Core.

Arguments emu : clear implicits.
Arguments M : clear implicits.

End Old.

(** ** fake6502.c *)

Module Wrap.

Section Core.
Context {W : Type}.

(** Modelled from the spec: the register file of the wrapped core, which
    [fake6502_improved.h] declares as static variables and which is not among
    the sources.  The fields are those of section 3 of the specification; their
    widths are the ones of the accessor prototypes in [fake6502.c]: a 16-bit
    program counter, 8-bit registers and a 32-bit cycle counter. *)
Record core6502 : Type := mk_core {
  core_pc : Z;
  core_sp : Z;
  core_a : Z;
  core_x : Z;
  core_y : Z;
  core_status : Z;
  core_clockticks : Z
}.

(** The static variables of the translation unit, those of the included core,
    and the host world. *)
Record emu : Type := mk_emu {
  core         : core6502;
  irq_pending  : Z;
  nmi_pending  : Z;
  memory_read  : option (read_func_t W);
  memory_write : option (write_func_t W);
  host         : W
}.

Definition with_core (c : core6502) (e : emu) : emu :=
  mk_emu c (irq_pending e) (nmi_pending e) (memory_read e) (memory_write e) (host e).
Definition with_irq (v : Z) (e : emu) : emu :=
  mk_emu (core e) v (nmi_pending e) (memory_read e) (memory_write e) (host e).
Definition with_nmi (v : Z) (e : emu) : emu :=
  mk_emu (core e) (irq_pending e) v (memory_read e) (memory_write e) (host e).
Definition with_host (w : W) (e : emu) : emu :=
  mk_emu (core e) (irq_pending e) (nmi_pending e) (memory_read e) (memory_write e) w.
Definition with_callbacks (r : option (read_func_t W)) (w : option (write_func_t W))
    (e : emu) : emu :=
  mk_emu (core e) (irq_pending e) (nmi_pending e) r w (host e).

Definition M (A : Type) : Type := State emu A.

Definition upd_core (f : core6502 -> core6502) : M unit :=
  modify (fun e => with_core (f (core e)) e).

Local Open Scope state_scope.

(** Default memory functions (return 0xFF for reads, ignore writes) *)
Definition default_read (address : Z) : Z := 0xFF.

Definition default_write (address value : Z) : unit := tt.

(** Bridge functions for the improved fake6502 core *)
Definition read6502 (address : Z) : M Z := fun e =>
  match memory_read e with
  | Some f => let r := f (u16 address) (host e) in (u8 (fst r), with_host (snd r) e)
  | None => (default_read (u16 address), e)
  end.

Definition write6502 (address value : Z) : M unit := fun e =>
  match memory_write e with
  | Some f => (tt, with_host (f (u16 address) (u8 value) (host e)) e)
  | None => (default_write (u16 address) (u8 value), e)
  end.

(** Modelled from the spec: [get_pc_6502] of the missing
    [fake6502_improved.h], a per-register accessor (section 4.1) returning
    [uint16_t]. *)
Definition get_pc_6502 : M Z := gets (fun e => u16 (core_pc (core e))).

(** Modelled from the spec: [get_sp_6502] of the missing header, returning
    [uint8_t]. *)
Definition get_sp_6502 : M Z := gets (fun e => u8 (core_sp (core e))).

(** Modelled from the spec: [get_a_6502] of the missing header, returning
    [uint8_t]. *)
Definition get_a_6502 : M Z := gets (fun e => u8 (core_a (core e))).

(** Modelled from the spec: [get_x_6502] of the missing header, returning
    [uint8_t]. *)
Definition get_x_6502 : M Z := gets (fun e => u8 (core_x (core e))).

(** Modelled from the spec: [get_y_6502] of the missing header, returning
    [uint8_t]. *)
Definition get_y_6502 : M Z := gets (fun e => u8 (core_y (core e))).

(** Modelled from the spec: [get_status_6502] of the missing header, returning
    [uint8_t]. *)
Definition get_status_6502 : M Z := gets (fun e => u8 (core_status (core e))).

(** Modelled from the spec: [get_cycles_6502] of the missing header; its
    prototype in [fake6502.c] returns [uint32_t]. *)
Definition get_cycles_6502 : M Z := gets (fun e => u32 (core_clockticks (core e))).

(** Modelled from the spec: [set_pc_6502] of the missing header, a
    per-register setter (section 4.1) that stores its [uint16_t] argument. *)
Definition set_pc_6502 (value : Z) : M unit :=
  upd_core (fun c => mk_core (u16 value) (core_sp c) (core_a c) (core_x c) (core_y c)
                             (core_status c) (core_clockticks c)).

(** Modelled from the spec: [set_sp_6502] of the missing header, storing its
    [uint8_t] argument. *)
Definition set_sp_6502 (value : Z) : M unit :=
  upd_core (fun c => mk_core (core_pc c) (u8 value) (core_a c) (core_x c) (core_y c)
                             (core_status c) (core_clockticks c)).

(** Modelled from the spec: [set_a_6502] of the missing header, storing its
    [uint8_t] argument. *)
Definition set_a_6502 (value : Z) : M unit :=
  upd_core (fun c => mk_core (core_pc c) (core_sp c) (u8 value) (core_x c) (core_y c)
                             (core_status c) (core_clockticks c)).

(** Modelled from the spec: [set_x_6502] of the missing header, storing its
    [uint8_t] argument. *)
Definition set_x_6502 (value : Z) : M unit :=
  upd_core (fun c => mk_core (core_pc c) (core_sp c) (core_a c) (u8 value) (core_y c)
                             (core_status c) (core_clockticks c)).

(** Modelled from the spec: [set_y_6502] of the missing header, storing its
    [uint8_t] argument. *)
Definition set_y_6502 (value : Z) : M unit :=
  upd_core (fun c => mk_core (core_pc c) (core_sp c) (core_a c) (core_x c) (u8 value)
                             (core_status c) (core_clockticks c)).

(** Modelled from the spec: [set_status_6502] of the missing header, storing
    its [uint8_t] argument with no validation (section 4.8). *)
Definition set_status_6502 (value : Z) : M unit :=
  upd_core (fun c => mk_core (core_pc c) (core_sp c) (core_a c) (core_x c) (core_y c)
                             (u8 value) (core_clockticks c)).

(** Modelled from the spec: [set_cycles_6502] of the missing header; its
    prototype in [fake6502.c] takes a [uint32_t]. *)
Definition set_cycles_6502 (value : Z) : M unit :=
  upd_core (fun c => mk_core (core_pc c) (core_sp c) (core_a c) (core_x c) (core_y c)
                             (core_status c) (u32 value)).

(** CPU control functions *)
Definition cpu_reset : M unit :=
  (* Initialize CPU state without reading from memory *)
  set_pc_6502 0x0000 ;;
  set_sp_6502 0xFD ;;
  set_a_6502 0 ;;
  set_x_6502 0 ;;
  set_y_6502 0 ;;
  set_status_6502 (Z.lor 0x20 0x04) ;; (* FLAG_CONSTANT | FLAG_INTERRUPT *)
  set_cycles_6502 0 ;;
  modify (with_irq 0) ;;
  modify (with_nmi 0).

(** [cpu_step] of this file only forwards to [nmi6502], [irq6502] and
    [step6502] of the missing core and is not embedded. *)

(** [state] is the pointee before the call ([None] for a null pointer); the
    result is the pointee after it. *)
Definition cpu_get_state (state : option cpu_state_t) : M (option cpu_state_t) :=
  match state with
  | Some _ =>
      p <- get_pc_6502 ;;
      s <- get_sp_6502 ;;
      ra <- get_a_6502 ;;
      rx <- get_x_6502 ;;
      ry <- get_y_6502 ;;
      st <- get_status_6502 ;;
      cy <- get_cycles_6502 ;;
      ret (Some (mk_cpu p s ra rx ry st (u64 cy)))
  | None => ret None
  end.

Definition cpu_set_state (state : option cpu_state_t) : M unit :=
  match state with
  | Some s =>
      set_pc_6502 (pc s) ;;
      set_sp_6502 (sp s) ;;
      set_a_6502 (a s) ;;
      set_x_6502 (x s) ;;
      set_y_6502 (y s) ;;
      set_status_6502 (status s) ;;
      set_cycles_6502 (cycles s)
  | None => ret tt
  end.

Definition cpu_set_memory_callbacks (read_func : option (read_func_t W))
    (write_func : option (write_func_t W)) : M unit :=
  modify (with_callbacks read_func write_func).

Definition cpu_trigger_irq : M unit := modify (with_irq 1).

Definition cpu_trigger_nmi : M unit := modify (with_nmi 1).

Definition cpu_clear_irq : M unit := modify (with_irq 0).

Definition cpu_is_irq_pending : M Z := gets irq_pending.

Definition cpu_is_nmi_pending : M Z := gets nmi_pending.

End Core.

Arguments emu : clear implicits.
Arguments M : clear implicits.

End Wrap.

(** ** The bus as the host sees it *)

(** What one bus read, or one bus write, does to the host world when the
    callbacks are [rd] and [wr]: with no callback attached a read gives 0xFF
    and a write is dropped. *)
Definition bus_read {W : Type} (rd : option (read_func_t W)) (addr : Z) (w : W) : Z * W :=
  match rd with
  | Some f => (u8 (fst (f addr w)), snd (f addr w))
  | None => (0xFF, w)
  end.

Definition bus_write {W : Type} (wr : option (write_func_t W)) (addr value : Z) (w : W) : W :=
  match wr with
  | Some f => f addr value w
  | None => w
  end.

(** A host whose bus is plain memory, kept as the list of the stores made so
    far, most recent first; a cell never stored reads 0. *)
Definition ram : Type := list (Z * Z).

Fixpoint ram_get (m : ram) (addr : Z) : Z :=
  match m with
  | [] => 0
  | (k, v) :: m' => if k =? addr then v else ram_get m' addr
  end.

Definition ram_read : read_func_t ram := fun addr m => (ram_get m addr, m).

Definition ram_write : write_func_t ram := fun addr value m => (addr, value) :: m.

(** The old core attached to [ram], and a run of [n] calls of [cpu_step]
    returning the cycle counts. *)
Definition old_boot (c : cpu_state_t) (irq nmi : Z) (m : ram) : Old.emu ram :=
  Old.mk_emu c irq nmi (Some ram_read) (Some ram_write) m.

Fixpoint steps {W : Type} (n : nat) (e : Old.emu W) : list Z * Old.emu W :=
  match n with
  | O => ([], e)
  | S k => let r := Old.cpu_step e in
           let r' := steps k (snd r) in
           (fst r :: fst r', snd r')
  end.

Definition flag (f : Z) (st : Z) : bool := c_true (Z.land st f).

(** The little-endian word made of two bytes, and the two bytes of a word. *)
Definition word_of (lo hi : Z) : Z := lo + 256 * hi.
Definition hi_byte (p : Z) : Z := p / 256.
Definition lo_byte (p : Z) : Z := p mod 256.

(** All byte values, for properties of flags decided by enumeration. *)
Definition bytes : list Z := map Z.of_nat (seq 0 256).

(** The wrapper attached to [ram]. *)
Definition wrap_boot (c : Wrap.core6502) (irq nmi : Z) (m : ram) : Wrap.emu ram :=
  Wrap.mk_emu c irq nmi (Some ram_read) (Some ram_write) m.

(** A bus whose reset vector holds 0x8000. *)
Definition reset_bus : ram := [(0xFFFC, 0x00); (0xFFFD, 0x80)].

(** ** What a call of [cpu_step] does, in the words of the specification *)

(** A little-endian word read from the bus: the low byte at [lo_addr] first,
    then the high byte at [hi_addr]. *)
Definition bus_read_word {W : Type} (rd : option (read_func_t W)) (lo_addr hi_addr : Z)
    (w : W) : Z * W :=
  let lo := bus_read rd lo_addr w in
  let hi := bus_read rd hi_addr (snd lo) in
  (word_of (fst lo) (fst hi), snd hi).

(** Which of its three paths [cpu_step] takes: the two conditions it tests. *)
Definition services_nmi {W : Type} (e : Old.emu W) : bool :=
  c_true (Old.nmi_pending e).

Definition services_irq {W : Type} (e : Old.emu W) : bool :=
  negb (c_true (Old.nmi_pending e)) && c_true (Old.irq_pending e)
  && negb (flag FLAG_INTERRUPT (status (Old.cpu e))).

Definition services_interrupt {W : Type} (e : Old.emu W) : bool :=
  services_nmi e || services_irq e.

(** The opcode byte an instruction step fetches, and the state once it is
    fetched: the program counter moved past it. *)
Definition fetched_opcode {W : Type} (e : Old.emu W) : Z :=
  fst (bus_read (Old.memory_read e) (pc (Old.cpu e)) (Old.host e)).

Definition after_fetch {W : Type} (e : Old.emu W) : Old.emu W :=
  Old.with_cpu (set_pc (u16 (pc (Old.cpu e) + 1)) (Old.cpu e))
    (Old.with_host (snd (bus_read (Old.memory_read e) (pc (Old.cpu e)) (Old.host e))) e).

Definition add_cycles {W : Type} (n : Z) (e : Old.emu W) : Old.emu W :=
  Old.with_cpu (set_cycles (u64 (cycles (Old.cpu e) + n)) (Old.cpu e)) e.

(** The opcodes [cpu_step] has a [case] for. *)
Definition implemented (op : Z) : bool :=
  existsb (Z.eqb op) [0x00; 0x4C; 0x6C; 0xA9; 0xEA; 0x40].

(** The interrupt service sequence, section 4.6 of the specification in its
    own words: push the high byte of the program counter, its low byte, then
    the byte [pushed] standing for the status register, at [0x0100 + sp] with
    [sp] going down by one (modulo 256) after each push; set InterruptDisable;
    load the program counter from [vector] and [vector + 1].  The latches and
    the cycle counter are left alone. *)
Definition interrupt_service {W : Type} (vector pushed : Z) (e : Old.emu W) : Old.emu W :=
  let c := Old.cpu e in
  let rd := Old.memory_read e in
  let wr := Old.memory_write e in
  let w1 := bus_write wr (0x0100 + sp c) (hi_byte (pc c)) (Old.host e) in
  let w2 := bus_write wr (0x0100 + u8 (sp c - 1)) (lo_byte (pc c)) w1 in
  let w3 := bus_write wr (0x0100 + u8 (sp c - 2)) pushed w2 in
  let v := bus_read_word rd vector (vector + 1) w3 in
  Old.mk_emu
    (mk_cpu (fst v) (u8 (sp c - 3)) (a c) (x c) (y c)
            (Z.lor (status c) FLAG_INTERRUPT) (cycles c))
    (Old.irq_pending e) (Old.nmi_pending e) rd wr (snd v).

(** The status byte section 4.6 asks a hardware interrupt to push: the status
    register with the Break flag clear. *)
Definition status_break_clear (st : Z) : Z := Z.land st (Z.lnot FLAG_BREAK).

(** A jump: the program counter loaded with the word read at [lo_addr] and
    [hi_addr]. *)
Definition jump_via {W : Type} (lo_addr hi_addr : Z) (e : Old.emu W) : Old.emu W :=
  let v := bus_read_word (Old.memory_read e) lo_addr hi_addr (Old.host e) in
  Old.with_cpu (set_pc (fst v) (Old.cpu e)) (Old.with_host (snd v) e).

(** Where indirect JMP reads the high byte of its target for the pointer
    [ptr]: the start of the same page when [ptr] is the last byte of a page,
    the next address otherwise. *)
Definition jmp_indirect_hi (ptr : Z) : Z :=
  if lo_byte ptr =? 0xFF then 256 * hi_byte ptr else ptr + 1.

(** The status byte LDA leaves, as [case 0xA9] computes it from the old status
    [st] and the loaded byte [v]: Zero and Sign cleared, then Zero set when
    the test [cpu.a == 0] holds ([z]) and Sign set when [cpu.a & 0x80] does
    ([n]). *)
Definition lda_status_of (st : Z) (z n : bool) : Z :=
  let s0 := u8 (Z.land st (Z.lnot (Z.lor FLAG_ZERO FLAG_SIGN))) in
  let s1 := if z then u8 (Z.lor s0 FLAG_ZERO) else s0 in
  if n then u8 (Z.lor s1 FLAG_SIGN) else s1.

Definition lda_status (st v : Z) : Z :=
  lda_status_of st (v =? 0) (c_true (Z.land v 0x80)).

(** The flags a load must leave alone. *)
Definition other_flags : list Z :=
  [FLAG_CARRY; FLAG_INTERRUPT; FLAG_DECIMAL; FLAG_BREAK; FLAG_CONSTANT; FLAG_OVERFLOW].

(** The checks behind the flag lemmas, decided byte by byte. *)
Definition lda_flags_ok (z n : bool) (st : Z) : bool :=
  Bool.eqb (flag FLAG_ZERO (lda_status_of st z n)) z
  && Bool.eqb (flag FLAG_SIGN (lda_status_of st z n)) n
  && forallb (fun f => Bool.eqb (flag f (lda_status_of st z n)) (flag f st)) other_flags.

Definition set_interrupt_ok (st : Z) : bool :=
  flag FLAG_INTERRUPT (Z.lor st FLAG_INTERRUPT)
  && Bool.eqb (flag FLAG_CONSTANT (Z.lor st FLAG_INTERRUPT)) (flag FLAG_CONSTANT st)
  && Bool.eqb (flag FLAG_BREAK (Z.lor st FLAG_INTERRUPT)) (flag FLAG_BREAK st).

Definition sign_bit_ok (v : Z) : bool :=
  Bool.eqb (c_true (Z.land v 0x80)) (Z.testbit v 7).

(** The state RTI leaves: status, then the low and the high byte of the
    program counter, pulled from [0x0100 + sp + 1 ..] with [sp] going up by
    one (modulo 256) before each pull. *)
Definition rti_effect {W : Type} (e : Old.emu W) : Old.emu W :=
  let c := Old.cpu e in
  let rd := Old.memory_read e in
  let st := bus_read rd (0x0100 + u8 (sp c + 1)) (Old.host e) in
  let v := bus_read_word rd (0x0100 + u8 (sp c + 2)) (0x0100 + u8 (sp c + 3)) (snd st) in
  Old.mk_emu
    (mk_cpu (fst v) (u8 (sp c + 3)) (a c) (x c) (y c) (fst st) (cycles c))
    (Old.irq_pending e) (Old.nmi_pending e) rd (Old.memory_write e) (snd v).

(** ** States used in the concrete scenarios *)

(** A snapshot whose cycle counter does not fit 32 bits. *)
Definition long_run_state : cpu_state_t :=
  mk_cpu 0x0200 0xFD 0x11 0x22 0x33 0x24 4294967296.

Definition idle_cpu : cpu_state_t := mk_cpu 0 0 0 0 0 0 0.

Definition idle_core : Wrap.core6502 := Wrap.mk_core 0 0 0 0 0 0 0.

(** Registers for a program at 0x0200: stack pointer 0xFD, cleared A, X, Y
    and cycle counter, and [st] in the status register. *)
Definition at_0200 (st : Z) : cpu_state_t := mk_cpu 0x0200 0xFD 0 0 0 st 0.

(** A program that executes BRK at 0x0200; the BRK/IRQ handler at 0x0300 is a
    lone RTI; the NMI handler is at 0x0400. *)
Definition brk_rti_bus : ram :=
  [(0x0200, 0x00); (0xFFFE, 0x00); (0xFFFF, 0x03); (0x0300, 0x40);
   (0xFFFA, 0x00); (0xFFFB, 0x04)].

Definition brk_rti_start : Old.emu ram := old_boot (at_0200 0x20) 0 0 brk_rti_bus.

(** The same machine after BRK and RTI have run, with an NMI raised. *)
Definition nmi_after_brk : Old.emu ram :=
  snd (Old.cpu_trigger_nmi (snd (steps 2 brk_rti_start))).

(** Both latches set; the NMI handler at 0x0300 is a lone RTI, the IRQ handler
    is at 0x0400. *)
Definition both_pending : Old.emu ram :=
  old_boot (at_0200 0x20) 1 1
    [(0xFFFA, 0x00); (0xFFFB, 0x03); (0x0300, 0x40); (0xFFFE, 0x00); (0xFFFF, 0x04)].

(** [JMP ($02FF)] at 0x0200: the pointer is the last byte of page 2. *)
Definition jmp_ind_start : Old.emu ram :=
  old_boot (at_0200 0x24) 0 0
    [(0x0200, 0x6C); (0x0201, 0xFF); (0x0202, 0x02); (0x02FF, 0x34); (0x0300, 0x12)].

(** [LDA #$42] at 0x0200. *)
Definition lda_bus : ram := [(0x0200, 0xA9); (0x0201, 0x42)].

(** The machine is entered by resetting, taking the snapshot, setting its
    program counter to 0x0200 and storing it back. *)
Definition lda_start : Old.emu ram :=
  let e := snd (Old.cpu_reset (old_boot idle_cpu 0 0 lda_bus)) in
  snd (Old.cpu_set_state (Some (set_pc 0x0200 (Old.cpu e))) e).

(** [LDX #$00] at 0x0200, with 0x55 in X and the Zero flag clear. *)
Definition ldx_start : Old.emu ram :=
  old_boot (mk_cpu 0x0200 0xFD 0 0x55 0 0x24 0) 0 0 [(0x0200, 0xA2); (0x0201, 0x00)].

(** [LDA $0300] at 0x0200. *)
Definition lda_abs_start : Old.emu ram :=
  old_boot (at_0200 0x24) 0 0
    [(0x0200, 0xAD); (0x0201, 0x00); (0x0202, 0x03); (0x0300, 0x42)].

(** RTI at 0x0200; the stack holds the status byte 0x00 and the return
    address 0x0300 (the stack pointer wraps from 0xFF to 0x00 on the last
    pull). *)
Definition rti_start : Old.emu ram :=
  old_boot (at_0200 0x24) 0 0
    [(0x0200, 0x40); (0x01FE, 0x00); (0x01FF, 0x00); (0x0100, 0x03)].

(** NOP at 0x0200. *)
Definition nop_start : Old.emu ram := old_boot (at_0200 0x24) 0 0 [(0x0200, 0xEA)].

(** The check behind [break_clear_id], decided byte by byte. *)
Definition break_clear_ok (st : Z) : bool :=
  flag FLAG_BREAK st || (status_break_clear st =? st).

(** ** Frames of the latch operations *)

(** [t] is [e] but for the IRQ latch, and but for the NMI latch. *)
Definition old_same_but_irq {W : Type} (e t : Old.emu W) : Prop :=
  Old.cpu t = Old.cpu e /\ Old.nmi_pending t = Old.nmi_pending e /\
  Old.memory_read t = Old.memory_read e /\ Old.memory_write t = Old.memory_write e /\
  Old.host t = Old.host e.

Definition old_same_but_nmi {W : Type} (e t : Old.emu W) : Prop :=
  Old.cpu t = Old.cpu e /\ Old.irq_pending t = Old.irq_pending e /\
  Old.memory_read t = Old.memory_read e /\ Old.memory_write t = Old.memory_write e /\
  Old.host t = Old.host e.

Definition wrap_same_but_irq {W : Type} (e t : Wrap.emu W) : Prop :=
  Wrap.core t = Wrap.core e /\ Wrap.nmi_pending t = Wrap.nmi_pending e /\
  Wrap.memory_read t = Wrap.memory_read e /\ Wrap.memory_write t = Wrap.memory_write e /\
  Wrap.host t = Wrap.host e.

Definition wrap_same_but_nmi {W : Type} (e t : Wrap.emu W) : Prop :=
  Wrap.core t = Wrap.core e /\ Wrap.irq_pending t = Wrap.irq_pending e /\
  Wrap.memory_read t = Wrap.memory_read e /\ Wrap.memory_write t = Wrap.memory_write e /\
  Wrap.host t = Wrap.host e.

(** What every [case] of the switch has in common: a well-formed state, a
    cycle count among 2, 3, 5, 6 and 7, and untouched latches and callbacks. *)
Definition switch_post {W : Type} (e : Old.emu W) (r : Z * Old.emu W) : Prop :=
  cpu_wf (Old.cpu (snd r))
  /\ In (fst r) [2; 3; 5; 6; 7]
  /\ Old.irq_pending (snd r) = Old.irq_pending e
  /\ Old.nmi_pending (snd r) = Old.nmi_pending e
  /\ Old.memory_read (snd r) = Old.memory_read e
  /\ Old.memory_write (snd r) = Old.memory_write e.

(** ** Buses that behave as memory *)

(** The callbacks [rd] and [wr] behave as memory whose content is observed by
    [peek]: a read returns the cell and changes nothing, a write changes the
    cell written and no other. *)
Record memory_bus {W : Type} (rd : read_func_t W) (wr : write_func_t W)
    (peek : W -> Z -> Z) : Prop := mk_memory_bus {
  mb_read : forall addr w, rd addr w = (peek w addr, w);
  mb_write_same : forall addr v w, peek (wr addr v w) addr = v;
  mb_write_other :
    forall addr addr' v w, addr' <> addr -> peek (wr addr v w) addr' = peek w addr'
}.

(** The old core is attached to such a bus. *)
Definition on_memory_bus {W : Type} (peek : W -> Z -> Z) (e : Old.emu W) : Prop :=
  exists rd wr,
    Old.memory_read e = Some rd /\ Old.memory_write e = Some wr /\ memory_bus rd wr peek.

(** The byte a read of [addr] returns on such a bus. *)
Definition peek8 {W : Type} (peek : W -> Z -> Z) (w : W) (addr : Z) : Z := u8 (peek w addr).

(** Push the bytes of [l], first to last; pull [n] bytes, first pulled first. *)
Fixpoint push_all {W : Type} (l : list Z) : Old.M W unit :=
  match l with
  | [] => ret tt
  | v :: l' => bind (Old.push6502 v) (fun _ => push_all l')
  end.

Fixpoint pull_n {W : Type} (n : nat) : Old.M W (list Z) :=
  match n with
  | O => ret []
  | S k => bind Old.pull6502 (fun v => bind (pull_n k) (fun l => ret (v :: l)))
  end.

(** The stack cell [i] places below the stack pointer [s], wrapping inside
    page 1. *)
Definition stack_cell (s : Z) (i : Z) : Z := 0x0100 + u8 (s - i).

Definition is_byte (v : Z) : Prop := 0 <= v < 256.

(** The bus writes one call of [cpu_step] makes, first to last, as address and
    value: three pushes when it services an interrupt or executes BRK, none
    otherwise. *)
Definition step_writes {W : Type} (e : Old.emu W) : list (Z * Z) :=
  let c := Old.cpu e in
  if services_interrupt e then
    [(0x0100 + sp c, hi_byte (pc c)); (stack_cell (sp c) 1, lo_byte (pc c));
     (stack_cell (sp c) 2, status c)]
  else if fetched_opcode e =? 0x00 then
    [(0x0100 + sp c, hi_byte (u16 (pc c + 2))); (stack_cell (sp c) 1, lo_byte (u16 (pc c + 2)));
     (stack_cell (sp c) 2, Z.lor (status c) FLAG_BREAK)]
  else [].

Definition apply_writes {W : Type} (wr : option (write_func_t W)) (l : list (Z * Z))
    (w : W) : W :=
  fold_left (fun w' aw => bus_write wr (fst aw) (snd aw) w') l w.

(** A stack that wraps: three bytes pushed from stack pointer 0x01. *)
Definition wrap_stack_start : Old.emu ram :=
  old_boot (mk_cpu 0x0200 0x01 0 0 0 0x24 0) 0 0 [(0x0200, 0xEA)].

(** The sum of the cycle counts a run returned. *)
Definition total_cycles (l : list Z) : Z := fold_right Z.add 0 l.

(** A machine with no callback attached. *)
Definition unattached_start : Old.emu unit :=
  Old.mk_emu (at_0200 0x24) 0 0 None None tt.

(** The values the core of [fake6502.c] can hold: every register within the
    type its accessor prototype gives. *)
Definition core_wf (c : Wrap.core6502) : Prop :=
  0 <= Wrap.core_pc c < 65536 /\ 0 <= Wrap.core_sp c < 256 /\ 0 <= Wrap.core_a c < 256 /\
  0 <= Wrap.core_x c < 256 /\ 0 <= Wrap.core_y c < 256 /\ 0 <= Wrap.core_status c < 256 /\
  0 <= Wrap.core_clockticks c < 4294967296.

(** A wrapper core holding registers from a run, attached to [ram]. *)
Definition wrap_running : Wrap.emu ram :=
  wrap_boot (Wrap.mk_core 0x0203 0xFA 0x42 0x01 0x02 0x34 20) 1 0 reset_bus.

(** ** fake6502_addon.cc *)

Module Addon.

(** The object handed to [SetState], as its N-API calls show it: for each of
    the seven keys, [None] when [obj.Has(key)] is false, and otherwise the
    [uint32_t] that [obj.Get(key).As<Napi::Number>().Uint32Value()] returns. *)
Record js_state : Type := mk_js_state {
  js_pc     : option Z;
  js_sp     : option Z;
  js_a      : option Z;
  js_x      : option Z;
  js_y      : option Z;
  js_status : option Z;
  js_cycles : option Z
}.

(** What the call leaves in the JavaScript environment: [undefined] is
    returned in both cases, after a TypeError was thrown or not. *)
Inductive js_outcome : Type :=
  | Returned
  | ThrewTypeError.

(** [if (obj.Has(key)) state.field = ...Uint32Value();] with the conversion
    [conv] to the field's type. *)
Definition assign (o : option Z) (conv : Z -> Z)
    (set : Z -> cpu_state_t -> cpu_state_t) (state : cpu_state_t) : cpu_state_t :=
  match o with
  | Some v => set (conv (u32 v)) state
  | None => state
  end.

Definition set_x (v : Z) (c : cpu_state_t) : cpu_state_t :=
  mk_cpu (pc c) (sp c) (a c) v (y c) (status c) (cycles c).
Definition set_y (v : Z) (c : cpu_state_t) : cpu_state_t :=
  mk_cpu (pc c) (sp c) (a c) (x c) v (status c) (cycles c).

Section SetState.
(** The two functions of [fake6502.h] the addon calls, as either core
    provides them. *)
Context {S : Type}.
Variable cpu_get_state : option cpu_state_t -> State S (option cpu_state_t).
Variable cpu_set_state : option cpu_state_t -> State S unit.

(** [SetState]: [arg] is [None] when [info.Length() < 1 || !info[0].IsObject()];
    [local] is the content of the uninitialised local [state] before
    [cpu_get_state(&state)] fills it. *)
Definition SetState (local : cpu_state_t) (arg : option js_state) : State S js_outcome :=
  match arg with
  | None => ret ThrewTypeError
  | Some obj =>
      bind (cpu_get_state (Some local)) (fun got =>  (* Get current state first *)
      let state := match got with Some s => s | None => local end in
      let state := assign (js_pc obj) u16 set_pc state in
      let state := assign (js_sp obj) u8 set_sp state in
      let state := assign (js_a obj) u8 set_a state in
      let state := assign (js_x obj) u8 set_x state in
      let state := assign (js_y obj) u8 set_y state in
      let state := assign (js_status obj) u8 set_status state in
      let state := assign (js_cycles obj) u64 set_cycles state in
      bind (cpu_set_state (Some state)) (fun _ => ret Returned))
  end.

End SetState.

End Addon.

(** The field a key of the object selects: the converted value when the key is
    present, the current value otherwise. *)
Definition js_field (o : option Z) (conv : Z -> Z) (current : Z) : Z :=
  match o with
  | Some v => conv (u32 v)
  | None => current
  end.

(** [JMP $0200] at 0x0200: a jump to itself. *)
Definition jmp_self_start : Old.emu ram :=
  old_boot (at_0200 0x24) 0 0 [(0x0200, 0x4C); (0x0201, 0x00); (0x0202, 0x02)].

(** ** The order of the two reads of a word *)

(** The expression [read6502(address) | (read6502(address + 1) << 8)] of
    [read6502_word] leaves the order of its two calls open, and
    [Old.read6502_word] takes them left to right.  Here is the same expression
    with the calls taken right to left, and [cpu_reset] over it. *)
Definition read6502_word_rl {W : Type} (address : Z) : @Old.M W Z :=
  (hi <- Old.read6502 (address + 1) ;;
   lo <- Old.read6502 address ;;
   ret (u16 (Z.lor lo (Z.shiftl hi 8))))%state.

Definition cpu_reset_rl {W : Type} : @Old.M W unit :=
  (Old.upd_cpu (fun _ => mk_cpu 0 0 0 0 0 0 0) ;;
   Old.upd_cpu (set_sp 0xFF) ;;
   Old.upd_cpu (set_status (Z.lor FLAG_CONSTANT FLAG_INTERRUPT)) ;;
   v <- read6502_word_rl 0xFFFC ;;
   Old.upd_cpu (set_pc v) ;;
   Old.upd_cpu (set_cycles 0) ;;
   modify (Old.with_irq 0) ;;
   modify (Old.with_nmi 0))%state.

(** Reading the cell [addr] leaves the host world as it is: the case of a
    memory, and of a core with no read callback. *)
Definition quiet_read {W : Type} (e : Old.emu W) (addr : Z) : Prop :=
  snd (bus_read (Old.memory_read e) addr (Old.host e)) = Old.host e.

(** The load opcodes of the 6502 other than LDA immediate: LDA zero page,
    zero page X, absolute, absolute X, absolute Y, (indirect,X) and
    (indirect),Y; LDX and LDY immediate, zero page, zero page indexed,
    absolute and absolute indexed. *)
Definition other_loads : list Z :=
  [0xA5; 0xB5; 0xAD; 0xBD; 0xB9; 0xA1; 0xB1;
   0xA2; 0xA6; 0xB6; 0xAE; 0xBE;
   0xA0; 0xA4; 0xB4; 0xAC; 0xBC].

(** * Properties *)

(** ** Bytes, words and flags *)

Lemma u8_range v : 0 <= u8 v < 256.
Proof. unfold u8. apply Z.mod_pos_bound. lia. Qed.

Lemma u16_range v : 0 <= u16 v < 65536.
Proof. unfold u16. apply Z.mod_pos_bound. lia. Qed.

Lemma u32_range v : 0 <= u32 v < 4294967296.
Proof. unfold u32. apply Z.mod_pos_bound. lia. Qed.

Lemma u64_range v : 0 <= u64 v < 18446744073709551616.
Proof. unfold u64. apply Z.mod_pos_bound. lia. Qed.

Lemma u8_id v : 0 <= v < 256 -> u8 v = v.
Proof. intros. unfold u8. apply Z.mod_small. lia. Qed.

Lemma u16_id v : 0 <= v < 65536 -> u16 v = v.
Proof. intros. unfold u16. apply Z.mod_small. lia. Qed.

Lemma u32_id v : 0 <= v < 4294967296 -> u32 v = v.
Proof. intros. unfold u32. apply Z.mod_small. lia. Qed.

Lemma u64_id v : 0 <= v < 18446744073709551616 -> u64 v = v.
Proof. intros. unfold u64. apply Z.mod_small. lia. Qed.

Lemma u8_land v : u8 v = Z.land v 255.
Proof.
  unfold u8. change 255 with (Z.ones 8).
  rewrite Z.land_ones by lia. reflexivity.
Qed.

Lemma lor_byte p q : 0 <= p < 256 -> 0 <= q < 256 -> 0 <= Z.lor p q < 256.
Proof.
  intros Hp Hq.
  rewrite <- (u8_id p), <- (u8_id q) by assumption.
  rewrite !u8_land, <- Z.land_lor_distr_l, <- u8_land.
  apply u8_range.
Qed.

Lemma land_byte p q : 0 <= p < 256 -> 0 <= Z.land p q < 256.
Proof.
  intros Hp.
  rewrite <- (u8_id p) by assumption.
  rewrite u8_land, <- Z.land_assoc, (Z.land_comm 255 q), Z.land_assoc, <- u8_land.
  apply u8_range.
Qed.

Lemma hi_byte_range p : 0 <= p < 65536 -> 0 <= hi_byte p < 256.
Proof.
  intros Hp. unfold hi_byte. split.
  - apply Z.div_pos; lia.
  - apply Z.div_lt_upper_bound; lia.
Qed.

Lemma lo_byte_range p : 0 <= lo_byte p < 256.
Proof. apply u8_range. Qed.

Lemma shiftr_hi_byte p : 0 <= p < 65536 -> Z.land (Z.shiftr p 8) 0xFF = hi_byte p.
Proof.
  intros Hp. rewrite Z.shiftr_div_pow2 by lia.
  change (2 ^ 8) with 256. rewrite <- u8_land.
  apply u8_id, hi_byte_range, Hp.
Qed.

Lemma land_lo_byte p : Z.land p 0xFF = lo_byte p.
Proof. symmetry. apply u8_land. Qed.

Lemma land_shiftl_byte lo hi : 0 <= lo < 256 -> Z.land lo (Z.shiftl hi 8) = 0.
Proof.
  intros Hlo. apply Z.bits_inj'. intros n Hn.
  rewrite Z.land_spec, Z.bits_0.
  destruct (Z.lt_ge_cases n 8) as [Hlt | Hge].
  - rewrite Z.shiftl_spec_low by assumption. apply andb_false_r.
  - assert (Hb : Z.testbit lo n = false).
    { apply Z.testbit_false; [assumption |].
      rewrite Z.div_small; [reflexivity |].
      split; [lia |].
      apply Z.lt_le_trans with (2 ^ 8); [simpl; lia |].
      apply Z.pow_le_mono_r; lia. }
    rewrite Hb. reflexivity.
Qed.

Lemma lor_word lo hi :
  0 <= lo < 256 -> 0 <= hi < 256 -> u16 (Z.lor lo (Z.shiftl hi 8)) = word_of lo hi.
Proof.
  intros Hlo Hhi.
  rewrite <- Z.lxor_lor, <- Z.add_nocarry_lxor by (apply land_shiftl_byte; assumption).
  rewrite Z.shiftl_mul_pow2 by lia. change (2 ^ 8) with 256.
  unfold word_of. rewrite u16_id; lia.
Qed.

Lemma word_of_range lo hi :
  0 <= lo < 256 -> 0 <= hi < 256 -> 0 <= word_of lo hi < 65536.
Proof. unfold word_of. lia. Qed.

Lemma bytes_complete v : 0 <= v < 256 -> In v bytes.
Proof.
  intros Hv. unfold bytes. apply in_map_iff.
  exists (Z.to_nat v). split; [lia |].
  apply in_seq. lia.
Qed.

Lemma forall_bytes (P : Z -> bool) :
  forallb P bytes = true -> forall v, 0 <= v < 256 -> P v = true.
Proof.
  intros HP v Hv. rewrite forallb_forall in HP.
  apply HP, bytes_complete, Hv.
Qed.

Lemma forall_bytes2 (P : Z -> Z -> bool) :
  forallb (fun p => forallb (P p) bytes) bytes = true ->
  forall p q, 0 <= p < 256 -> 0 <= q < 256 -> P p q = true.
Proof.
  intros HP p q Hp Hq.
  apply (forall_bytes (P p)); [| assumption].
  apply (forall_bytes (fun p => forallb (P p) bytes)); assumption.
Qed.

Lemma bus_read_range {W : Type} (rd : option (read_func_t W)) addr w :
  0 <= fst (bus_read rd addr w) < 256.
Proof.
  destruct rd as [f |]; simpl.
  - apply u8_range.
  - lia.
Qed.

Lemma cpu_wfb_spec c : cpu_wfb c = true <-> cpu_wf c.
Proof.
  unfold cpu_wfb, cpu_wf, in_range.
  rewrite !andb_true_iff, !Z.leb_le, !Z.ltb_lt. tauto.
Qed.

Lemma u8_u8 v : u8 (u8 v) = u8 v.
Proof. apply u8_id, u8_range. Qed.

Lemma u8_pred v k : u8 (u8 v - k) = u8 (v - k).
Proof. unfold u8. apply Zminus_mod_idemp_l. Qed.

Lemma u8_succ v k : u8 (u8 v + k) = u8 (v + k).
Proof. unfold u8. apply Zplus_mod_idemp_l. Qed.

Lemma u8_pred2 s : u8 (u8 (s - 1) - 1) = u8 (s - 2).
Proof. rewrite u8_pred. f_equal. lia. Qed.

Lemma u8_pred3 s : u8 (u8 (u8 (s - 1) - 1) - 1) = u8 (s - 3).
Proof. rewrite u8_pred2, u8_pred. f_equal. lia. Qed.

Lemma u8_succ2 s : u8 (u8 (s + 1) + 1) = u8 (s + 2).
Proof. rewrite u8_succ. f_equal. lia. Qed.

Lemma u8_succ3 s : u8 (u8 (u8 (s + 1) + 1) + 1) = u8 (s + 3).
Proof. rewrite u8_succ2, u8_succ. f_equal. lia. Qed.

Lemma u8_lo_byte p : u8 (Z.land p 0xFF) = lo_byte p.
Proof. rewrite land_lo_byte. apply u8_u8. Qed.

Lemma u8_hi_byte p : 0 <= p < 65536 -> u8 (Z.land (Z.shiftr p 8) 0xFF) = hi_byte p.
Proof.
  intros Hp. rewrite shiftr_hi_byte by assumption.
  apply u8_id, hi_byte_range, Hp.
Qed.

Lemma u8_set_flag st f : 0 <= st < 256 -> 0 <= f < 256 -> u8 (Z.lor st f) = Z.lor st f.
Proof. intros. apply u8_id, lor_byte; assumption. Qed.

Lemma stack_addr s : 0 <= s < 256 -> u16 (0x0100 + s) = 0x0100 + s.
Proof. intros. apply u16_id. lia. Qed.

Lemma u16_u16 v : u16 (u16 v) = u16 v.
Proof. apply u16_id, u16_range. Qed.

Lemma u16_succ v k : u16 (u16 v + k) = u16 (v + k).
Proof. unfold u16. apply Zplus_mod_idemp_l. Qed.

Lemma land_land_distr p q r : Z.land (Z.land p q) (Z.land p r) = Z.land p (Z.land q r).
Proof.
  apply Z.bits_inj'. intros n Hn. rewrite !Z.land_spec.
  destruct (Z.testbit p n), (Z.testbit q n), (Z.testbit r n); reflexivity.
Qed.

Lemma land_page p : 0 <= p < 65536 -> Z.land p 0xFF00 = 256 * hi_byte p.
Proof.
  intros Hp.
  assert (Hsplit : p = Z.land p 0xFF00 + Z.land p 0xFF).
  { rewrite Z.add_nocarry_lxor, Z.lxor_lor
      by (rewrite land_land_distr; change (Z.land 0xFF00 0xFF) with 0; apply Z.land_0_r).
    rewrite <- Z.land_lor_distr_r. change (Z.lor 0xFF00 0xFF) with (Z.ones 16).
    rewrite Z.land_ones by lia. symmetry. apply Z.mod_small. simpl. lia. }
  rewrite land_lo_byte in Hsplit. unfold lo_byte in Hsplit. unfold hi_byte.
  pose proof (Z.div_mod p 256). lia.
Qed.

Lemma lo_byte_word lo hi : 0 <= lo < 256 -> lo_byte (word_of lo hi) = lo.
Proof.
  intros Hlo. unfold lo_byte, word_of.
  replace (lo + 256 * hi) with (lo + hi * 256) by lia.
  rewrite Z.mod_add by lia. apply Z.mod_small, Hlo.
Qed.

Lemma hi_byte_word lo hi : 0 <= lo < 256 -> hi_byte (word_of lo hi) = hi.
Proof.
  intros Hlo. unfold hi_byte, word_of.
  replace (lo + 256 * hi) with (lo + hi * 256) by lia.
  rewrite Z.div_add by lia.
  rewrite Z.div_small by assumption. reflexivity.
Qed.

Lemma last_of_page p : 0 <= p < 65536 -> lo_byte p <> 0xFF -> p + 1 < 65536.
Proof.
  intros Hp Hlo. destruct (Z.eq_dec p 65535) as [-> | Hne]; [| lia].
  exfalso. apply Hlo. reflexivity.
Qed.

(** ** The blocks of [cpu_step] in the old core, one equation each *)

Ltac run_old :=
  cbv beta iota zeta delta
    [Old.handle_nmi Old.handle_irq Old.fetch_execute
     Old.op_brk Old.op_jmp_abs Old.op_jmp_ind Old.op_lda_imm Old.op_nop Old.op_rti
     Old.op_unknown Old.cpu_reset Old.push6502 Old.pull6502
     Old.read6502_word Old.read6502 Old.write6502 Old.upd_cpu
     Old.default_read Old.default_write
     Old.cpu_get_state Old.cpu_set_state Old.cpu_set_memory_callbacks
     Old.cpu_trigger_irq Old.cpu_trigger_nmi Old.cpu_clear_irq
     bind ret gets modify
     Old.with_cpu Old.with_irq Old.with_nmi Old.with_host Old.with_callbacks
     Old.cpu Old.irq_pending Old.nmi_pending Old.memory_read Old.memory_write Old.host
     set_pc set_sp set_a set_status set_cycles
     pc sp a x y status cycles
     bus_read bus_write bus_read_word interrupt_service rti_effect jump_via
     fetched_opcode after_fetch add_cycles];
  cbn [fst snd].

Ltac open_wf H :=
  unfold cpu_wf in H; cbn [pc sp a x y status cycles Old.cpu] in H;
  destruct H as (Hpc & Hsp & Ha & Hx & Hy & Hst & Hcy).

Ltac norm_old :=
  rewrite ?lor_word by (apply u8_range || lia);
  rewrite ?u8_hi_byte by (assumption || apply u16_range);
  rewrite ?u8_lo_byte;
  rewrite ?u8_pred3, ?u8_pred2, ?u8_succ3, ?u8_succ2;
  rewrite ?stack_addr by (assumption || apply u8_range);
  rewrite ?u8_set_flag by (assumption || (cbv; split; [discriminate | reflexivity]));
  rewrite ?u16_u16.

Section OldBlocks.
Context {W : Type}.
Implicit Type e : Old.emu W.

Lemma old_handle_nmi e :
  cpu_wf (Old.cpu e) ->
  Old.handle_nmi e
  = (7, add_cycles 7 (Old.with_nmi 0 (interrupt_service 0xFFFA (status (Old.cpu e)) e))).
Proof.
  intros Hwf.
  destruct e as [[p s ra rx ry st cy] irq nmi rd wr w].
  open_wf Hwf.
  destruct rd as [rf|], wr as [wf|]; run_old; norm_old.
  all: rewrite ?(u8_id st) by assumption.
  all: reflexivity.
Qed.

Lemma old_handle_irq e :
  cpu_wf (Old.cpu e) ->
  Old.handle_irq e
  = (7, add_cycles 7 (Old.with_irq 0 (interrupt_service 0xFFFE (status (Old.cpu e)) e))).
Proof.
  intros Hwf.
  destruct e as [[p s ra rx ry st cy] irq nmi rd wr w].
  open_wf Hwf.
  destruct rd as [rf|], wr as [wf|]; run_old; norm_old.
  all: rewrite ?(u8_id st) by assumption.
  all: reflexivity.
Qed.

Lemma old_fetch_execute e :
  cpu_wf (Old.cpu e) ->
  Old.fetch_execute e
  = (fst (Old.cpu_step_switch (fetched_opcode e) (after_fetch e)),
     add_cycles (fst (Old.cpu_step_switch (fetched_opcode e) (after_fetch e)))
                (snd (Old.cpu_step_switch (fetched_opcode e) (after_fetch e)))).
Proof.
  intros Hwf.
  destruct e as [[p s ra rx ry st cy] irq nmi rd wr w].
  open_wf Hwf.
  destruct rd as [rf|]; run_old; rewrite ?(u16_id p) by assumption.
  all: match goal with |- context [Old.cpu_step_switch ?o ?s] =>
         destruct (Old.cpu_step_switch o s) as [n [c' i' n' r' w' h']] end.
  all: reflexivity.
Qed.

Lemma old_op_brk e :
  cpu_wf (Old.cpu e) ->
  Old.op_brk e
  = (7, interrupt_service 0xFFFE (Z.lor (status (Old.cpu e)) FLAG_BREAK)
          (Old.with_cpu (set_pc (u16 (pc (Old.cpu e) + 1)) (Old.cpu e)) e)).
Proof.
  intros Hwf.
  destruct e as [[p s ra rx ry st cy] irq nmi rd wr w].
  open_wf Hwf.
  destruct rd as [rf|], wr as [wf|]; run_old; norm_old.
  all: rewrite ?(u8_set_flag st FLAG_BREAK)
         by (assumption || (cbv; split; [discriminate | reflexivity])).
  all: reflexivity.
Qed.

Lemma old_op_jmp_abs e :
  cpu_wf (Old.cpu e) ->
  Old.op_jmp_abs e = (3, jump_via (pc (Old.cpu e)) (u16 (pc (Old.cpu e) + 1)) e).
Proof.
  intros Hwf.
  destruct e as [[p s ra rx ry st cy] irq nmi rd wr w].
  open_wf Hwf.
  destruct rd as [rf|]; run_old; norm_old; rewrite ?(u16_id p) by assumption.
  all: reflexivity.
Qed.

Lemma old_op_jmp_ind e :
  cpu_wf (Old.cpu e) ->
  let ptr := bus_read_word (Old.memory_read e) (pc (Old.cpu e)) (u16 (pc (Old.cpu e) + 1))
               (Old.host e) in
  Old.op_jmp_ind e
  = (5, jump_via (fst ptr) (jmp_indirect_hi (fst ptr)) (Old.with_host (snd ptr) e)).
Proof.
  intros Hwf.
  destruct e as [[p s ra rx ry st cy] irq nmi rd wr w].
  open_wf Hwf.
  destruct rd as [rf|]; run_old; norm_old; rewrite ?(u16_id p) by assumption.
  all: unfold jmp_indirect_hi; rewrite land_lo_byte.
  all: match goal with |- context [lo_byte ?q =? 255] =>
         assert (Hq : 0 <= q < 65536) by (apply word_of_range; (apply u8_range || lia));
         pose proof (hi_byte_range q Hq) as Hh;
         destruct (lo_byte q =? 255) eqn:Hpage;
         [ try rewrite (land_page q Hq)
         | apply Z.eqb_neq in Hpage; pose proof (last_of_page q Hq Hpage) ];
         run_old; norm_old;
         rewrite ?(u16_id q), ?(u16_id (256 * hi_byte q)), ?(u16_id (q + 1)) by lia
       end.
  all: reflexivity.
Qed.

Lemma old_op_lda_imm e :
  cpu_wf (Old.cpu e) ->
  let c := Old.cpu e in
  let v := bus_read (Old.memory_read e) (pc c) (Old.host e) in
  Old.op_lda_imm e
  = (2, Old.mk_emu
          (mk_cpu (u16 (pc c + 1)) (sp c) (fst v) (x c) (y c)
                  (lda_status (status c) (fst v)) (cycles c))
          (Old.irq_pending e) (Old.nmi_pending e) (Old.memory_read e)
          (Old.memory_write e) (snd v)).
Proof.
  intros Hwf.
  destruct e as [[p s ra rx ry st cy] irq nmi rd wr w].
  open_wf Hwf.
  destruct rd as [rf|]; run_old; rewrite ?(u16_id p) by assumption.
  all: unfold lda_status, lda_status_of.
  all: match goal with |- context [c_true (Z.land ?v 128)] =>
         destruct (v =? 0); destruct (c_true (Z.land v 128)) end.
  all: reflexivity.
Qed.

Lemma old_op_rti e :
  cpu_wf (Old.cpu e) -> Old.op_rti e = (6, rti_effect e).
Proof.
  intros Hwf.
  destruct e as [[p s ra rx ry st cy] irq nmi rd wr w].
  open_wf Hwf.
  destruct rd as [rf|]; run_old; norm_old.
  all: reflexivity.
Qed.

Lemma old_switch_brk e : Old.cpu_step_switch 0x00 e = Old.op_brk e.
Proof. reflexivity. Qed.

Lemma old_switch_jmp_abs e : Old.cpu_step_switch 0x4C e = Old.op_jmp_abs e.
Proof. reflexivity. Qed.

Lemma old_switch_jmp_ind e : Old.cpu_step_switch 0x6C e = Old.op_jmp_ind e.
Proof. reflexivity. Qed.

Lemma old_switch_lda_imm e : Old.cpu_step_switch 0xA9 e = Old.op_lda_imm e.
Proof. reflexivity. Qed.

Lemma old_switch_nop e : Old.cpu_step_switch 0xEA e = (2, e).
Proof. reflexivity. Qed.

Lemma old_switch_rti e : Old.cpu_step_switch 0x40 e = Old.op_rti e.
Proof. reflexivity. Qed.

Lemma old_switch_unknown op e :
  implemented op = false -> Old.cpu_step_switch op e = (2, e).
Proof.
  unfold implemented, existsb. rewrite !orb_false_iff.
  intros (H0 & H1 & H2 & H3 & H4 & H5 & _).
  unfold Old.cpu_step_switch. rewrite H0, H1, H2, H3, H4, H5. reflexivity.
Qed.

Lemma implemented_cases op :
  implemented op = true ->
  op = 0x00 \/ op = 0x4C \/ op = 0x6C \/ op = 0xA9 \/ op = 0xEA \/ op = 0x40.
Proof.
  unfold implemented, existsb. rewrite !orb_true_iff, !Z.eqb_eq. intuition discriminate.
Qed.

(** The three paths of [cpu_step]. *)
Lemma old_step_nmi e :
  cpu_wf (Old.cpu e) -> services_nmi e = true ->
  Old.cpu_step e
  = (7, add_cycles 7 (Old.with_nmi 0 (interrupt_service 0xFFFA (status (Old.cpu e)) e))).
Proof.
  intros Hwf Hn. unfold services_nmi in Hn.
  unfold Old.cpu_step. rewrite Hn. apply old_handle_nmi, Hwf.
Qed.

Lemma old_step_irq e :
  cpu_wf (Old.cpu e) -> services_irq e = true ->
  Old.cpu_step e
  = (7, add_cycles 7 (Old.with_irq 0 (interrupt_service 0xFFFE (status (Old.cpu e)) e))).
Proof.
  intros Hwf Hi. unfold services_irq, flag in Hi.
  apply andb_true_iff in Hi. destruct Hi as [Hi Hm].
  apply andb_true_iff in Hi. destruct Hi as [Hn Hi].
  apply negb_true_iff in Hn.
  unfold Old.cpu_step. rewrite Hn, Hi, Hm. apply old_handle_irq, Hwf.
Qed.

Lemma old_step_instr e :
  services_interrupt e = false -> Old.cpu_step e = Old.fetch_execute e.
Proof.
  unfold services_interrupt, services_nmi, services_irq, flag. intros Hs.
  apply orb_false_iff in Hs. destruct Hs as [Hn Hi].
  unfold Old.cpu_step. rewrite Hn in *. simpl in Hi.
  rewrite Hi. reflexivity.
Qed.

End OldBlocks.


(** ** Flags, by enumeration of the bytes *)

Lemma sign_bit v : 0 <= v < 256 -> c_true (Z.land v 0x80) = Z.testbit v 7.
Proof.
  intros Hv. apply eqb_prop.
  apply (forall_bytes sign_bit_ok); [vm_compute; reflexivity | assumption].
Qed.

Lemma lda_flags st v :
  0 <= st < 256 -> 0 <= v < 256 ->
  flag FLAG_ZERO (lda_status st v) = (v =? 0)
  /\ flag FLAG_SIGN (lda_status st v) = Z.testbit v 7
  /\ forall f, In f other_flags -> flag f (lda_status st v) = flag f st.
Proof.
  intros Hst Hv. rewrite <- (sign_bit v Hv). unfold lda_status.
  assert (H : lda_flags_ok (v =? 0) (c_true (Z.land v 128)) st = true).
  { apply forall_bytes; [| assumption].
    destruct (v =? 0), (c_true (Z.land v 128)); vm_compute; reflexivity. }
  unfold lda_flags_ok in H. rewrite !andb_true_iff, forallb_forall in H.
  destruct H as [[Hz Hn] Ho].
  repeat split.
  - apply eqb_prop, Hz.
  - apply eqb_prop, Hn.
  - intros f Hf. apply eqb_prop, Ho, Hf.
Qed.

Lemma lda_status_range st v : 0 <= lda_status st v < 256.
Proof.
  unfold lda_status, lda_status_of.
  destruct (v =? 0), (c_true (Z.land v 128)); apply u8_range.
Qed.

Lemma set_interrupt_flags st :
  0 <= st < 256 ->
  flag FLAG_INTERRUPT (Z.lor st FLAG_INTERRUPT) = true
  /\ flag FLAG_CONSTANT (Z.lor st FLAG_INTERRUPT) = flag FLAG_CONSTANT st
  /\ flag FLAG_BREAK (Z.lor st FLAG_INTERRUPT) = flag FLAG_BREAK st.
Proof.
  intros Hst.
  assert (H : set_interrupt_ok st = true).
  { apply forall_bytes; [vm_compute; reflexivity | assumption]. }
  unfold set_interrupt_ok in H. rewrite !andb_true_iff in H. destruct H as [[Hi Hc] Hb].
  repeat split; [assumption | apply eqb_prop, Hc | apply eqb_prop, Hb].
Qed.

(** ** Well-formedness and frames of the blocks *)

Section OldFrames.
Context {W : Type}.
Implicit Type e : Old.emu W.

Lemma bus_read_word_range (rd : option (read_func_t W)) lo_addr hi_addr w :
  0 <= fst (bus_read_word rd lo_addr hi_addr w) < 65536.
Proof. unfold bus_read_word. cbn [fst]. apply word_of_range; apply bus_read_range. Qed.

Lemma interrupt_service_wf vector pushed e :
  cpu_wf (Old.cpu e) -> cpu_wf (Old.cpu (interrupt_service vector pushed e)).
Proof.
  intros Hwf. destruct e as [[p s ra rx ry st cy] irq nmi rd wr w]. open_wf Hwf.
  unfold interrupt_service, cpu_wf. cbn [Old.cpu pc sp a x y status cycles].
  repeat split; try lia; try apply bus_read_word_range; try apply u8_range;
    apply lor_byte; (assumption || (cbv; split; [discriminate | reflexivity])).
Qed.

Lemma jump_via_wf lo_addr hi_addr e :
  cpu_wf (Old.cpu e) -> cpu_wf (Old.cpu (jump_via lo_addr hi_addr e)).
Proof.
  intros Hwf. destruct e as [[p s ra rx ry st cy] irq nmi rd wr w]. open_wf Hwf.
  unfold jump_via, cpu_wf. cbn [Old.cpu Old.with_cpu set_pc pc sp a x y status cycles].
  repeat split; try lia; apply bus_read_word_range.
Qed.

Lemma rti_effect_wf e : cpu_wf (Old.cpu e) -> cpu_wf (Old.cpu (rti_effect e)).
Proof.
  intros Hwf. destruct e as [[p s ra rx ry st cy] irq nmi rd wr w]. open_wf Hwf.
  unfold rti_effect, cpu_wf. cbn [Old.cpu pc sp a x y status cycles].
  repeat split; try lia; try apply bus_read_word_range; try apply u8_range;
    apply bus_read_range.
Qed.

Lemma after_fetch_wf e : cpu_wf (Old.cpu e) -> cpu_wf (Old.cpu (after_fetch e)).
Proof.
  intros Hwf. destruct e as [[p s ra rx ry st cy] irq nmi rd wr w]. open_wf Hwf.
  unfold after_fetch, cpu_wf. cbn [Old.cpu Old.with_cpu set_pc pc sp a x y status cycles].
  repeat split; try lia; apply u16_range.
Qed.

Lemma add_cycles_wf n e : cpu_wf (Old.cpu e) -> cpu_wf (Old.cpu (add_cycles n e)).
Proof.
  intros Hwf. destruct e as [[p s ra rx ry st cy] irq nmi rd wr w]. open_wf Hwf.
  unfold add_cycles, cpu_wf. cbn [Old.cpu Old.with_cpu set_cycles pc sp a x y status cycles].
  repeat split; try lia; apply u64_range.
Qed.

Lemma old_switch_post op e :
  cpu_wf (Old.cpu e) -> switch_post e (Old.cpu_step_switch op e).
Proof.
  intros Hwf. unfold switch_post.
  destruct (implemented op) eqn:Himpl.
  - apply implemented_cases in Himpl.
    destruct Himpl as [-> | [-> | [-> | [-> | [-> | ->]]]]].
    + rewrite old_switch_brk, old_op_brk by assumption. cbn [fst snd].
      split; [| cbn; tauto].
      apply interrupt_service_wf.
      destruct e as [[p s ra rx ry st cy] irq nmi rd wr w]. open_wf Hwf.
      unfold cpu_wf. cbn [Old.cpu Old.with_cpu set_pc pc sp a x y status cycles].
      repeat split; try lia; apply u16_range.
    + rewrite old_switch_jmp_abs, old_op_jmp_abs by assumption. cbn [fst snd].
      split; [apply jump_via_wf, Hwf | cbn; tauto].
    + rewrite old_switch_jmp_ind, old_op_jmp_ind by assumption. cbn [fst snd].
      split; [| cbn; tauto].
      apply jump_via_wf. destruct e; exact Hwf.
    + rewrite old_switch_lda_imm, old_op_lda_imm by assumption. cbn [fst snd].
      split; [| cbn; tauto].
      destruct e as [[p s ra rx ry st cy] irq nmi rd wr w]. open_wf Hwf.
      unfold cpu_wf. cbn [Old.cpu pc sp a x y status cycles].
      repeat split; try lia; try apply u16_range; try apply bus_read_range;
        apply lda_status_range.
    + rewrite old_switch_nop. cbn. tauto.
    + rewrite old_switch_rti, old_op_rti by assumption. cbn [fst snd].
      split; [apply rti_effect_wf, Hwf | cbn; tauto].
  - rewrite old_switch_unknown by assumption. cbn. tauto.
Qed.

End OldFrames.

(** ** One call of [cpu_step], and runs of calls *)

Section OldSteps.
Context {W : Type}.
Implicit Type e : Old.emu W.

Lemma old_step_instr_post e :
  cpu_wf (Old.cpu e) -> services_interrupt e = false ->
  switch_post e (Old.cpu_step e).
Proof.
  intros Hwf Hs.
  rewrite old_step_instr, old_fetch_execute by assumption.
  destruct (old_switch_post (fetched_opcode e) (after_fetch e) (after_fetch_wf e Hwf))
    as (Hw & Hn & Hi & Hm & Hr & Hwr).
  unfold switch_post. cbn [fst snd].
  split; [apply add_cycles_wf, Hw |].
  split; [exact Hn |].
  destruct (snd (Old.cpu_step_switch (fetched_opcode e) (after_fetch e)));
    destruct e; repeat split; assumption.
Qed.

Lemma old_step_wf e : cpu_wf (Old.cpu e) -> cpu_wf (Old.cpu (snd (Old.cpu_step e))).
Proof.
  intros Hwf.
  destruct (services_interrupt e) eqn:Hs.
  - unfold services_interrupt in Hs. apply orb_true_iff in Hs.
    destruct Hs as [Hn | Hi].
    + rewrite old_step_nmi by assumption. cbn [snd].
      apply add_cycles_wf. apply (interrupt_service_wf _ _ e Hwf).
    + rewrite old_step_irq by assumption. cbn [snd].
      apply add_cycles_wf. apply (interrupt_service_wf _ _ e Hwf).
  - apply old_step_instr_post; assumption.
Qed.

Lemma steps_last n : forall e,
  snd (steps (S n) e) = snd (Old.cpu_step (snd (steps n e))).
Proof.
  induction n as [| n IH]; intros e.
  - reflexivity.
  - change (snd (steps (S (S n)) e)) with (snd (steps (S n) (snd (Old.cpu_step e)))).
    rewrite IH. reflexivity.
Qed.

Lemma masked_not_serviced e :
  services_nmi e = false -> flag FLAG_INTERRUPT (status (Old.cpu e)) = true ->
  services_interrupt e = false.
Proof.
  intros Hn Hm. unfold services_interrupt, services_irq. rewrite Hn, Hm.
  cbn. apply andb_false_r.
Qed.

(** While InterruptDisable stays set and no NMI is pending, calls of
    [cpu_step] leave both latches as they are. *)
Lemma irq_latched_while_masked n e :
  cpu_wf (Old.cpu e) -> services_nmi e = false ->
  (forall k, (k < n)%nat ->
     flag FLAG_INTERRUPT (status (Old.cpu (snd (steps k e)))) = true) ->
  cpu_wf (Old.cpu (snd (steps n e)))
  /\ Old.irq_pending (snd (steps n e)) = Old.irq_pending e
  /\ Old.nmi_pending (snd (steps n e)) = Old.nmi_pending e.
Proof.
  intros Hwf Hn. induction n as [| n IH]; intros Hmask.
  - cbn. auto.
  - destruct IH as (Hw & Hi & Hnm); [intros k Hk; apply Hmask; lia |].
    rewrite steps_last.
    assert (Hs : services_interrupt (snd (steps n e)) = false).
    { apply masked_not_serviced; [| apply Hmask; lia].
      unfold services_nmi in *. rewrite Hnm. exact Hn. }
    destruct (old_step_instr_post _ Hw Hs) as (Hw' & _ & Hi' & Hn' & _).
    split; [exact Hw' |]. split; congruence.
Qed.

End OldSteps.

(** ** Reset, snapshots and latches *)

Ltac run_wrap :=
  cbv beta iota zeta delta
    [Wrap.cpu_reset Wrap.cpu_get_state Wrap.cpu_set_state Wrap.cpu_set_memory_callbacks
     Wrap.cpu_trigger_irq Wrap.cpu_trigger_nmi Wrap.cpu_clear_irq
     Wrap.get_pc_6502 Wrap.get_sp_6502 Wrap.get_a_6502 Wrap.get_x_6502 Wrap.get_y_6502
     Wrap.get_status_6502 Wrap.get_cycles_6502
     Wrap.set_pc_6502 Wrap.set_sp_6502 Wrap.set_a_6502 Wrap.set_x_6502 Wrap.set_y_6502
     Wrap.set_status_6502 Wrap.set_cycles_6502
     Wrap.upd_core bind ret gets modify
     Wrap.with_core Wrap.with_irq Wrap.with_nmi Wrap.with_host Wrap.with_callbacks
     Wrap.core Wrap.irq_pending Wrap.nmi_pending Wrap.memory_read Wrap.memory_write
     Wrap.host
     Wrap.core_pc Wrap.core_sp Wrap.core_a Wrap.core_x Wrap.core_y Wrap.core_status
     Wrap.core_clockticks
     pc sp a x y status cycles set_cycles];
  cbn [fst snd].

Section Snapshots.
Context {W : Type}.

(** X1: [cpu_reset] of the old core, from every prior state and on every bus
    where reading the two bytes of the reset vector leaves the host as it is:
    the program counter is the little-endian word of the bytes at 0xFFFC and
    0xFFFD, the stack pointer 0xFF, A, X, Y and the cycle counter 0, the
    status 0x24, both interrupt latches are cleared, and the callbacks and the
    host are unchanged; the result is the same whichever of the two reads is
    made first. *)
Theorem old_cpu_reset (e : Old.emu W) :
  quiet_read e 0xFFFC -> quiet_read e 0xFFFD ->
  let lo := fst (bus_read (Old.memory_read e) 0xFFFC (Old.host e)) in
  let hi := fst (bus_read (Old.memory_read e) 0xFFFD (Old.host e)) in
  let e' := Old.mk_emu (mk_cpu (word_of lo hi) 0xFF 0 0 0 0x24 0) 0 0
              (Old.memory_read e) (Old.memory_write e) (Old.host e) in
  Old.cpu_reset e = (tt, e') /\ cpu_reset_rl e = (tt, e').
Proof.
  unfold quiet_read.
  destruct e as [c irq nmi rd wr w].
  destruct rd as [rf|]; cbn [bus_read Old.memory_read Old.host snd fst];
    intros Hlo Hhi; cbv zeta.
  - split.
    + run_old. change (u16 65532) with 65532. change (u16 (65532 + 1)) with 65533.
      rewrite Hlo, Hhi. norm_old. reflexivity.
    + unfold cpu_reset_rl, read6502_word_rl. run_old.
      change (u16 65532) with 65532. change (u16 (65532 + 1)) with 65533.
      rewrite Hhi, Hlo. norm_old. reflexivity.
  - split.
    + run_old. norm_old. reflexivity.
    + unfold cpu_reset_rl, read6502_word_rl. run_old. norm_old. reflexivity.
Qed.

(** [cpu_reset] of the wrapper: no bus access, and the program counter is 0. *)
Lemma wrap_cpu_reset (e : Wrap.emu W) :
  Wrap.cpu_reset e
  = (tt, Wrap.mk_emu (Wrap.mk_core 0 0xFD 0 0 0 0x24 0) 0 0
           (Wrap.memory_read e) (Wrap.memory_write e) (Wrap.host e)).
Proof. destruct e as [c irq nmi rd wr w]. reflexivity. Qed.

(** The snapshot of the old core is a copy of the whole structure. *)
Lemma old_set_get_state (e : Old.emu W) (s s0 : cpu_state_t) :
  fst (Old.cpu_get_state (Some s0) (snd (Old.cpu_set_state (Some s) e))) = Some s.
Proof. reflexivity. Qed.

(** The snapshot of the wrapper goes through the accessors: every field comes
    back but the cycle counter, which comes back modulo 2^32. *)
Lemma wrap_set_get_state (e : Wrap.emu W) (s s0 : cpu_state_t) :
  cpu_wf s ->
  fst (Wrap.cpu_get_state (Some s0) (snd (Wrap.cpu_set_state (Some s) e)))
  = Some (set_cycles (u32 (cycles s)) s).
Proof.
  intros Hwf. destruct s as [p sp0 ra rx ry st cy]. open_wf Hwf.
  run_wrap.
  rewrite !u16_u16, !u8_u8, (u16_id p), (u8_id sp0), (u8_id ra), (u8_id rx), (u8_id ry),
    (u8_id st) by assumption.
  rewrite (u32_id (u32 cy)) by apply u32_range.
  rewrite (u64_id (u32 cy)) by (pose proof (u32_range cy); lia).
  reflexivity.
Qed.

Lemma wrap_set_get_state_small (e : Wrap.emu W) (s s0 : cpu_state_t) :
  cpu_wf s -> cycles s < 4294967296 ->
  fst (Wrap.cpu_get_state (Some s0) (snd (Wrap.cpu_set_state (Some s) e))) = Some s.
Proof.
  intros Hwf Hsmall. rewrite wrap_set_get_state by assumption.
  destruct s as [p sp0 ra rx ry st cy]. open_wf Hwf. cbn [cycles] in Hsmall.
  unfold set_cycles. cbn [pc sp a x y status cycles].
  rewrite u32_id by lia. reflexivity.
Qed.

End Snapshots.

Lemma old_cpu_reset_witness :
  quiet_read (old_boot long_run_state 1 1 reset_bus) 0xFFFC
  /\ quiet_read (old_boot long_run_state 1 1 reset_bus) 0xFFFD
  /\ Old.cpu_reset (old_boot long_run_state 1 1 reset_bus)
     = (tt, old_boot (mk_cpu 0x8000 0xFF 0 0 0 0x24 0) 0 0 reset_bus)
  /\ cpu_reset_rl (old_boot long_run_state 1 1 reset_bus)
     = (tt, old_boot (mk_cpu 0x8000 0xFF 0 0 0 0x24 0) 0 0 reset_bus).
Proof.
  assert (Hlo : quiet_read (old_boot long_run_state 1 1 reset_bus) 0xFFFC) by reflexivity.
  assert (Hhi : quiet_read (old_boot long_run_state 1 1 reset_bus) 0xFFFD) by reflexivity.
  split; [exact Hlo |]. split; [exact Hhi |].
  destruct (old_cpu_reset (old_boot long_run_state 1 1 reset_bus) Hlo Hhi) as [Hlr Hrl].
  rewrite Hlr, Hrl. split; vm_compute; reflexivity.
Defined.

(** C1: after reset() the stack pointer is 0xFD, status is 0x24, the cycle
    counter is 0 and the program counter is the little-endian word at 0xFFFC
    and 0xFFFD.  Evaluated on a bus whose reset vector holds 0x8000, from any
    prior state: [cpu_reset] of fake6502_old.c reads the vector but leaves the
    stack pointer at 0xFF, and [cpu_reset] of fake6502.c sets the stack pointer
    to 0xFD but the program counter to 0, without reading the bus. *)
Theorem C1_reset_state :
  Old.cpu (snd (Old.cpu_reset (old_boot long_run_state 1 1 reset_bus)))
  = mk_cpu 0x8000 0xFF 0 0 0 0x24 0
  /\ fst (Wrap.cpu_get_state (Some idle_cpu)
            (snd (Wrap.cpu_reset (wrap_boot idle_core 1 1 reset_bus))))
     = Some (mk_cpu 0x0000 0xFD 0 0 0 0x24 0)
  /\ Wrap.host (snd (Wrap.cpu_reset (wrap_boot idle_core 1 1 reset_bus))) = reset_bus.
Proof. repeat split; vm_compute; reflexivity. Qed.

(** C6: set_state(s) followed by get_state() returns exactly s.  Evaluated at
    a snapshot whose cycle counter is 2^32: the structure copy of
    fake6502_old.c returns it unchanged, while fake6502.c passes the 64-bit
    counter through the 32-bit [set_cycles_6502] and [get_cycles_6502] and
    returns a snapshot whose cycle counter is 0. *)
Theorem C6_set_get_state_roundtrip :
  fst (Old.cpu_get_state (Some idle_cpu)
         (snd (Old.cpu_set_state (Some long_run_state) (old_boot idle_cpu 0 0 reset_bus))))
  = Some long_run_state
  /\ fst (Wrap.cpu_get_state (Some idle_cpu)
            (snd (Wrap.cpu_set_state (Some long_run_state) (wrap_boot idle_core 0 0 reset_bus))))
     = Some (set_cycles 0 long_run_state)
  /\ set_cycles 0 long_run_state <> long_run_state.
Proof. repeat split; try (vm_compute; reflexivity). discriminate. Qed.

(** C10: trigger_irq(), trigger_nmi() and clear_irq() change only their own
    latch, in both cores: the architectural state, the other latch, the
    callbacks and the host world (no bus access) are unchanged; the latch
    takes the value the operation gives it; and a second call changes
    nothing. *)
Theorem C10_latch_operations_frame :
  forall (W : Type) (e : Old.emu W) (e' : Wrap.emu W),
    (old_same_but_irq e (snd (Old.cpu_trigger_irq e))
     /\ Old.irq_pending (snd (Old.cpu_trigger_irq e)) = 1
     /\ snd (Old.cpu_trigger_irq (snd (Old.cpu_trigger_irq e))) = snd (Old.cpu_trigger_irq e))
    /\ (old_same_but_nmi e (snd (Old.cpu_trigger_nmi e))
        /\ Old.nmi_pending (snd (Old.cpu_trigger_nmi e)) = 1
        /\ snd (Old.cpu_trigger_nmi (snd (Old.cpu_trigger_nmi e))) = snd (Old.cpu_trigger_nmi e))
    /\ (old_same_but_irq e (snd (Old.cpu_clear_irq e))
        /\ Old.irq_pending (snd (Old.cpu_clear_irq e)) = 0)
    /\ (wrap_same_but_irq e' (snd (Wrap.cpu_trigger_irq e'))
        /\ Wrap.irq_pending (snd (Wrap.cpu_trigger_irq e')) = 1
        /\ snd (Wrap.cpu_trigger_irq (snd (Wrap.cpu_trigger_irq e')))
           = snd (Wrap.cpu_trigger_irq e'))
    /\ (wrap_same_but_nmi e' (snd (Wrap.cpu_trigger_nmi e'))
        /\ Wrap.nmi_pending (snd (Wrap.cpu_trigger_nmi e')) = 1
        /\ snd (Wrap.cpu_trigger_nmi (snd (Wrap.cpu_trigger_nmi e')))
           = snd (Wrap.cpu_trigger_nmi e'))
    /\ (wrap_same_but_irq e' (snd (Wrap.cpu_clear_irq e'))
        /\ Wrap.irq_pending (snd (Wrap.cpu_clear_irq e')) = 0).
Proof.
  intros W e e'.
  unfold old_same_but_irq, old_same_but_nmi, wrap_same_but_irq, wrap_same_but_nmi.
  destruct e as [c irq nmi rd wr w]. destruct e' as [c' irq' nmi' rd' wr' w'].
  repeat split; reflexivity.
Qed.

(** ** Interrupts *)

Lemma break_clear_id st :
  0 <= st < 256 -> flag FLAG_BREAK st = false -> status_break_clear st = st.
Proof.
  intros Hst Hb.
  assert (H : break_clear_ok st = true).
  { apply forall_bytes; [vm_compute; reflexivity | assumption]. }
  unfold break_clear_ok in H. rewrite Hb in H. apply Z.eqb_eq, H.
Qed.

(** C2 (amended): when step() services a hardware interrupt it pushes the high
    byte of the program counter, then its low byte, then the status register
    exactly as it is stored, at 0x0100+sp with sp going down by one modulo 256
    after each push; it then sets InterruptDisable, loads the program counter
    from 0xFFFA/0xFFFB for NMI and from 0xFFFE/0xFFFF for IRQ, clears the
    latch it served, adds 7 to the cycle counter and returns 7.  The pushed
    status byte is the one with the Break flag clear whenever Break is clear
    in the status register. *)
Theorem C2_interrupt_service_sequence :
  forall (W : Type) (e : Old.emu W),
    cpu_wf (Old.cpu e) ->
    (services_nmi e = true ->
       Old.cpu_step e
       = (7, add_cycles 7
               (Old.with_nmi 0 (interrupt_service 0xFFFA (status (Old.cpu e)) e))))
    /\ (services_irq e = true ->
          Old.cpu_step e
          = (7, add_cycles 7
                  (Old.with_irq 0 (interrupt_service 0xFFFE (status (Old.cpu e)) e))))
    /\ (flag FLAG_BREAK (status (Old.cpu e)) = false ->
          status (Old.cpu e) = status_break_clear (status (Old.cpu e))).
Proof.
  intros W e Hwf. repeat split.
  - intros Hn. apply old_step_nmi; assumption.
  - intros Hi. apply old_step_irq; assumption.
  - intros Hb. symmetry. apply break_clear_id; [| exact Hb].
    unfold cpu_wf in Hwf. tauto.
Qed.

Lemma C2_interrupt_service_witness :
  cpu_wf (Old.cpu both_pending)
  /\ services_nmi both_pending = true
  /\ Old.cpu_step both_pending
     = (7, add_cycles 7 (Old.with_nmi 0 (interrupt_service 0xFFFA 0x20 both_pending))).
Proof.
  assert (Hwf : cpu_wf (Old.cpu both_pending)) by (apply cpu_wfb_spec; reflexivity).
  split; [exact Hwf |]. split; [reflexivity |].
  apply (proj1 (C2_interrupt_service_sequence ram both_pending Hwf)). reflexivity.
Defined.

(** C2, as stated, fails: after BRK and RTI the status register holds 0x30,
    Break set, and the NMI serviced next pushes 0x30, not 0x20. *)
Lemma C2_break_flag_pushed_set :
  status (Old.cpu nmi_after_brk) = 0x30
  /\ services_nmi nmi_after_brk = true
  /\ fst (Old.cpu_step nmi_after_brk) = 7
  /\ firstn 3 (Old.host (snd (Old.cpu_step nmi_after_brk)))
     = [(0x01FB, 0x30); (0x01FC, 0x02); (0x01FD, 0x02)]
  /\ flag FLAG_BREAK 0x30 = true
  /\ Old.cpu_step nmi_after_brk
     <> (7, add_cycles 7
              (Old.with_nmi 0
                 (interrupt_service 0xFFFA
                    (status_break_clear (status (Old.cpu nmi_after_brk))) nmi_after_brk))).
Proof.
  repeat split; try (vm_compute; reflexivity).
  intros H. apply (f_equal (fun r => firstn 1 (Old.host (snd r)))) in H.
  vm_compute in H. discriminate H.
Qed.

(** C3: with both latches set, step() services the NMI: it loads the program
    counter from 0xFFFA/0xFFFB and clears the NMI latch only.  The IRQ latch
    then stays set over any number of further steps during which
    InterruptDisable is set, and the first step taken with InterruptDisable
    clear services the IRQ. *)
Theorem C3_nmi_before_irq :
  forall (W : Type) (e : Old.emu W),
    cpu_wf (Old.cpu e) ->
    c_true (Old.nmi_pending e) = true ->
    c_true (Old.irq_pending e) = true ->
    let e1 := snd (Old.cpu_step e) in
    Old.cpu_step e
    = (7, add_cycles 7 (Old.with_nmi 0 (interrupt_service 0xFFFA (status (Old.cpu e)) e)))
    /\ Old.nmi_pending e1 = 0
    /\ Old.irq_pending e1 = Old.irq_pending e
    /\ flag FLAG_INTERRUPT (status (Old.cpu e1)) = true
    /\ forall n : nat,
         (forall k, (k < n)%nat ->
            flag FLAG_INTERRUPT (status (Old.cpu (snd (steps k e1)))) = true) ->
         let en := snd (steps n e1) in
         Old.irq_pending en = Old.irq_pending e
         /\ Old.nmi_pending en = 0
         /\ (flag FLAG_INTERRUPT (status (Old.cpu en)) = false ->
               Old.cpu_step en
               = (7, add_cycles 7
                       (Old.with_irq 0
                          (interrupt_service 0xFFFE (status (Old.cpu en)) en)))).
Proof.
  intros W e Hwf Hn Hi e1.
  assert (Hstep := old_step_nmi e Hwf Hn).
  assert (Hwf1 : cpu_wf (Old.cpu e1)) by apply old_step_wf, Hwf.
  assert (Hn1 : Old.nmi_pending e1 = 0) by (subst e1; rewrite Hstep; reflexivity).
  assert (Hi1 : Old.irq_pending e1 = Old.irq_pending e)
    by (subst e1; rewrite Hstep; reflexivity).
  split; [exact Hstep |]. split; [exact Hn1 |]. split; [exact Hi1 |].
  split.
  - subst e1. rewrite Hstep. cbn.
    apply set_interrupt_flags. unfold cpu_wf in Hwf. tauto.
  - intros n Hmask en.
    assert (Hsn : services_nmi e1 = false) by (unfold services_nmi; rewrite Hn1; reflexivity).
    destruct (irq_latched_while_masked n e1 Hwf1 Hsn Hmask) as (Hwn & Hin & Hnn).
    fold en in Hwn, Hin, Hnn.
    split; [congruence |]. split; [congruence |].
    intros Hclear. apply old_step_irq; [exact Hwn |].
    unfold services_irq. rewrite Hnn, Hn1, Hin, Hi1, Hi, Hclear. reflexivity.
Qed.

Lemma C3_nmi_before_irq_witness :
  cpu_wf (Old.cpu both_pending)
  /\ c_true (Old.nmi_pending both_pending) = true
  /\ c_true (Old.irq_pending both_pending) = true
  /\ flag FLAG_INTERRUPT (status (Old.cpu (snd (Old.cpu_step both_pending)))) = true
  /\ flag FLAG_INTERRUPT
       (status (Old.cpu (snd (steps 1 (snd (Old.cpu_step both_pending)))))) = false
  /\ Old.cpu_step (snd (steps 1 (snd (Old.cpu_step both_pending))))
     = (7, add_cycles 7
             (Old.with_irq 0
                (interrupt_service 0xFFFE
                   (status (Old.cpu (snd (steps 1 (snd (Old.cpu_step both_pending))))))
                   (snd (steps 1 (snd (Old.cpu_step both_pending))))))).
Proof.
  assert (Hwf : cpu_wf (Old.cpu both_pending)) by (apply cpu_wfb_spec; reflexivity).
  split; [exact Hwf |]. split; [reflexivity |]. split; [reflexivity |].
  destruct (C3_nmi_before_irq ram both_pending Hwf eq_refl eq_refl)
    as (_ & _ & _ & Hset & Hrun).
  split; [exact Hset |].
  assert (Hclear : flag FLAG_INTERRUPT
                     (status (Old.cpu (snd (steps 1 (snd (Old.cpu_step both_pending))))))
                   = false) by (vm_compute; reflexivity).
  split; [exact Hclear |].
  destruct (Hrun 1%nat) as (_ & _ & Hirq).
  - intros k Hk. assert (k = 0%nat) as -> by lia. vm_compute. reflexivity.
  - exact (Hirq Hclear).
Defined.

(** ** Instructions *)

Section OldInstr.
Context {W : Type}.
Implicit Type e : Old.emu W.

(** An instruction step is the fetch, the [case] of the opcode, and the
    cycle accounting. *)
Lemma old_step_switch e :
  cpu_wf (Old.cpu e) -> services_interrupt e = false ->
  Old.cpu_step e
  = (fst (Old.cpu_step_switch (fetched_opcode e) (after_fetch e)),
     add_cycles (fst (Old.cpu_step_switch (fetched_opcode e) (after_fetch e)))
                (snd (Old.cpu_step_switch (fetched_opcode e) (after_fetch e)))).
Proof. intros Hwf Hs. rewrite old_step_instr by assumption. apply old_fetch_execute, Hwf. Qed.

Lemma old_step_unknown e :
  cpu_wf (Old.cpu e) -> services_interrupt e = false ->
  implemented (fetched_opcode e) = false ->
  Old.cpu_step e = (2, add_cycles 2 (after_fetch e)).
Proof.
  intros Hwf Hs Hop.
  rewrite old_step_switch, old_switch_unknown by assumption. reflexivity.
Qed.

Lemma old_step_jmp_ind e :
  cpu_wf (Old.cpu e) -> services_interrupt e = false -> fetched_opcode e = 0x6C ->
  let e1 := after_fetch e in
  let ptr := bus_read_word (Old.memory_read e1) (pc (Old.cpu e1))
               (u16 (pc (Old.cpu e1) + 1)) (Old.host e1) in
  Old.cpu_step e
  = (5, add_cycles 5
          (jump_via (fst ptr) (jmp_indirect_hi (fst ptr)) (Old.with_host (snd ptr) e1))).
Proof.
  intros Hwf Hs Hop.
  rewrite old_step_switch, Hop, old_switch_jmp_ind by assumption.
  rewrite old_op_jmp_ind by apply after_fetch_wf, Hwf.
  reflexivity.
Qed.

Lemma old_step_lda_imm e :
  cpu_wf (Old.cpu e) -> services_interrupt e = false -> fetched_opcode e = 0xA9 ->
  let e1 := after_fetch e in
  let v := bus_read (Old.memory_read e1) (pc (Old.cpu e1)) (Old.host e1) in
  Old.cpu_step e
  = (2, add_cycles 2
          (Old.mk_emu
             (mk_cpu (u16 (pc (Old.cpu e) + 2)) (sp (Old.cpu e)) (fst v) (x (Old.cpu e))
                     (y (Old.cpu e)) (lda_status (status (Old.cpu e)) (fst v))
                     (cycles (Old.cpu e)))
             (Old.irq_pending e) (Old.nmi_pending e) (Old.memory_read e)
             (Old.memory_write e) (snd v))).
Proof.
  intros Hwf Hs Hop.
  rewrite old_step_switch, Hop, old_switch_lda_imm by assumption.
  rewrite old_op_lda_imm by apply after_fetch_wf, Hwf.
  destruct e as [[p s ra rx ry st cy] irq nmi rd wr w].
  cbn [fst snd after_fetch Old.with_cpu Old.with_host set_pc
       Old.cpu Old.irq_pending Old.nmi_pending Old.memory_read Old.memory_write Old.host
       pc sp a x y status cycles].
  rewrite u16_succ. replace (p + 1 + 1) with (p + 2) by lia. reflexivity.
Qed.

Lemma old_step_rti e :
  cpu_wf (Old.cpu e) -> services_interrupt e = false -> fetched_opcode e = 0x40 ->
  Old.cpu_step e = (6, add_cycles 6 (rti_effect (after_fetch e))).
Proof.
  intros Hwf Hs Hop.
  rewrite old_step_switch, Hop, old_switch_rti by assumption.
  rewrite old_op_rti by apply after_fetch_wf, Hwf.
  reflexivity.
Qed.

Lemma old_step_brk e :
  cpu_wf (Old.cpu e) -> services_interrupt e = false -> fetched_opcode e = 0x00 ->
  let e1 := after_fetch e in
  Old.cpu_step e
  = (7, add_cycles 7
          (interrupt_service 0xFFFE (Z.lor (status (Old.cpu e1)) FLAG_BREAK)
             (Old.with_cpu (set_pc (u16 (pc (Old.cpu e1) + 1)) (Old.cpu e1)) e1))).
Proof.
  intros Hwf Hs Hop.
  rewrite old_step_switch, Hop, old_switch_brk by assumption.
  rewrite old_op_brk by apply after_fetch_wf, Hwf.
  reflexivity.
Qed.

Lemma old_step_jmp_abs e :
  cpu_wf (Old.cpu e) -> services_interrupt e = false -> fetched_opcode e = 0x4C ->
  let e1 := after_fetch e in
  Old.cpu_step e
  = (3, add_cycles 3 (jump_via (pc (Old.cpu e1)) (u16 (pc (Old.cpu e1) + 1)) e1)).
Proof.
  intros Hwf Hs Hop.
  rewrite old_step_switch, Hop, old_switch_jmp_abs by assumption.
  rewrite old_op_jmp_abs by apply after_fetch_wf, Hwf.
  reflexivity.
Qed.

Lemma old_step_nop e :
  cpu_wf (Old.cpu e) -> services_interrupt e = false -> fetched_opcode e = 0xEA ->
  Old.cpu_step e = (2, add_cycles 2 (after_fetch e)).
Proof.
  intros Hwf Hs Hop.
  rewrite old_step_switch, Hop, old_switch_nop by assumption. reflexivity.
Qed.

End OldInstr.

(** C4: indirect JMP through a pointer 0xnnFF reads the low byte of its target
    at 0xnnFF and the high byte at 0xnn00, not at 0x(nn+1)00; through any
    other pointer it reads the high byte at the next address.  The step
    returns 5. *)
Theorem C4_jmp_indirect_page_wrap :
  forall (W : Type) (e : Old.emu W),
    cpu_wf (Old.cpu e) ->
    services_interrupt e = false ->
    fetched_opcode e = 0x6C ->
    let e1 := after_fetch e in
    let ptr := bus_read_word (Old.memory_read e1) (pc (Old.cpu e1))
                 (u16 (pc (Old.cpu e1) + 1)) (Old.host e1) in
    Old.cpu_step e
    = (5, add_cycles 5
            (jump_via (fst ptr) (jmp_indirect_hi (fst ptr)) (Old.with_host (snd ptr) e1)))
    /\ (forall nn, 0 <= nn < 256 -> fst ptr = word_of 0xFF nn ->
          jmp_indirect_hi (fst ptr) = word_of 0x00 nn)
    /\ (lo_byte (fst ptr) <> 0xFF -> jmp_indirect_hi (fst ptr) = fst ptr + 1).
Proof.
  intros W e Hwf Hs Hop e1 ptr. repeat split.
  - apply old_step_jmp_ind; assumption.
  - intros nn Hnn ->. unfold jmp_indirect_hi.
    rewrite lo_byte_word, hi_byte_word by lia. reflexivity.
  - intros Hlo. unfold jmp_indirect_hi.
    apply Z.eqb_neq in Hlo. rewrite Hlo. reflexivity.
Qed.

Lemma C4_jmp_indirect_witness :
  cpu_wf (Old.cpu jmp_ind_start)
  /\ fst (Old.cpu_step jmp_ind_start) = 5
  /\ pc (Old.cpu (snd (Old.cpu_step jmp_ind_start))) = word_of 0x34 0x6C.
Proof.
  assert (Hwf : cpu_wf (Old.cpu jmp_ind_start)) by (apply cpu_wfb_spec; reflexivity).
  split; [exact Hwf |].
  destruct (C4_jmp_indirect_page_wrap ram jmp_ind_start Hwf eq_refl eq_refl)
    as (Hstep & _ & _).
  rewrite Hstep. split; reflexivity.
Defined.

(** C5: step() always returns: exactly 7 when it services an interrupt, a
    count between 2 and 8 when it executes an instruction, whatever the opcode
    byte; an opcode with no case of its own costs 2 cycles and only moves the
    program counter past the opcode byte.  The state it leaves is again
    well-formed. *)
Theorem C5_step_total :
  forall (W : Type) (e : Old.emu W),
    cpu_wf (Old.cpu e) ->
    exists (n : Z) (e' : Old.emu W),
      Old.cpu_step e = (n, e')
      /\ cpu_wf (Old.cpu e')
      /\ (services_interrupt e = true -> n = 7)
      /\ (services_interrupt e = false -> 2 <= n <= 8)
      /\ (services_interrupt e = false -> implemented (fetched_opcode e) = false ->
            n = 2 /\ e' = add_cycles 2 (after_fetch e)).
Proof.
  intros W e Hwf.
  exists (fst (Old.cpu_step e)), (snd (Old.cpu_step e)).
  split; [apply surjective_pairing |].
  split; [apply old_step_wf, Hwf |].
  split; [| split].
  - intros Hs. unfold services_interrupt in Hs. apply orb_true_iff in Hs.
    destruct Hs as [Hn | Hi].
    + rewrite old_step_nmi by assumption. reflexivity.
    + rewrite old_step_irq by assumption. reflexivity.
  - intros Hs. destruct (old_step_instr_post e Hwf Hs) as (_ & Hin & _).
    cbn in Hin. lia.
  - intros Hs Hop. rewrite old_step_unknown by assumption. split; reflexivity.
Qed.

Lemma C5_step_total_witness :
  cpu_wf (Old.cpu lda_abs_start)
  /\ Old.cpu_step lda_abs_start = (2, add_cycles 2 (after_fetch lda_abs_start)).
Proof.
  assert (Hwf : cpu_wf (Old.cpu lda_abs_start)) by (apply cpu_wfb_spec; reflexivity).
  split; [exact Hwf |].
  destruct (C5_step_total ram lda_abs_start Hwf) as (n & e' & Hstep & _ & _ & _ & Hunk).
  destruct (Hunk eq_refl eq_refl) as [-> ->]. exact Hstep.
Defined.

(** C7 (amended): LDA immediate, the one load the core implements, loads the
    byte v that follows the opcode into A, sets the Zero flag iff v is 0 and
    the Negative flag iff bit 7 of v is 1, changes no other flag and none of
    sp, X and Y, moves the program counter by 2, adds 2 to the cycle counter
    and returns 2.  Every other load opcode of the 6502 (LDX, LDY and the
    remaining addressing modes of LDA) has no case: the step is the one of an
    unknown opcode, which returns 2, moves the program counter past the opcode
    byte only, adds 2 to the cycle counter, reads no operand and leaves A, X,
    Y, sp, the status register, the latches and the callbacks as they were. *)
Theorem C7_lda_immediate_flags :
  forall (W : Type) (e : Old.emu W),
    cpu_wf (Old.cpu e) ->
    services_interrupt e = false ->
    let e1 := after_fetch e in
    let v := fst (bus_read (Old.memory_read e1) (pc (Old.cpu e1)) (Old.host e1)) in
    let c := Old.cpu e in
    let c' := Old.cpu (snd (Old.cpu_step e)) in
    (fetched_opcode e = 0xA9 ->
       fst (Old.cpu_step e) = 2
       /\ a c' = v
       /\ pc c' = u16 (pc c + 2)
       /\ flag FLAG_ZERO (status c') = (v =? 0)
       /\ flag FLAG_SIGN (status c') = Z.testbit v 7
       /\ (forall f, In f other_flags -> flag f (status c') = flag f (status c))
       /\ sp c' = sp c /\ x c' = x c /\ y c' = y c
       /\ cycles c' = u64 (cycles c + 2))
    /\ (In (fetched_opcode e) other_loads ->
       Old.cpu_step e = (2, add_cycles 2 e1)
       /\ a c' = a c /\ x c' = x c /\ y c' = y c /\ sp c' = sp c
       /\ status c' = status c
       /\ pc c' = u16 (pc c + 1)
       /\ cycles c' = u64 (cycles c + 2)
       /\ Old.host (snd (Old.cpu_step e)) = Old.host e1
       /\ Old.irq_pending (snd (Old.cpu_step e)) = Old.irq_pending e
       /\ Old.nmi_pending (snd (Old.cpu_step e)) = Old.nmi_pending e
       /\ Old.memory_read (snd (Old.cpu_step e)) = Old.memory_read e
       /\ Old.memory_write (snd (Old.cpu_step e)) = Old.memory_write e).
Proof.
  intros W e Hwf Hs e1 v c c'. split.
  - intros Hop.
    assert (Hstep := old_step_lda_imm e Hwf Hs Hop).
    cbv zeta in Hstep. fold e1 in Hstep.
    subst c c'. rewrite Hstep. cbn [fst snd add_cycles Old.cpu Old.with_cpu set_cycles
                                     pc sp a x y status cycles].
    fold v.
    assert (Hst : 0 <= status (Old.cpu e) < 256) by (unfold cpu_wf in Hwf; tauto).
    assert (Hv : 0 <= v < 256) by apply bus_read_range.
    destruct (lda_flags (status (Old.cpu e)) v Hst Hv) as (Hz & Hn & Ho).
    repeat split; assumption.
  - intros Hop.
    assert (Himpl : implemented (fetched_opcode e) = false).
    { unfold other_loads in Hop. cbn [In] in Hop.
      repeat (destruct Hop as [<- | Hop]; [reflexivity |]). contradiction. }
    assert (Hstep := old_step_unknown e Hwf Hs Himpl). fold e1 in Hstep.
    subst c c'. rewrite Hstep. subst e1.
    destruct e as [[p s ra rx ry st cy] irq nmi rd wr w].
    repeat split.
Qed.

Lemma C7_lda_immediate_witness :
  cpu_wf (Old.cpu lda_start)
  /\ pc (Old.cpu lda_start) = 0x0200
  /\ fst (Old.cpu_step lda_start) = 2
  /\ a (Old.cpu (snd (Old.cpu_step lda_start))) = 0x42
  /\ pc (Old.cpu (snd (Old.cpu_step lda_start))) = 0x0202
  /\ flag FLAG_ZERO (status (Old.cpu (snd (Old.cpu_step lda_start)))) = false
  /\ flag FLAG_SIGN (status (Old.cpu (snd (Old.cpu_step lda_start)))) = false.
Proof.
  assert (Hwf : cpu_wf (Old.cpu lda_start)) by (apply cpu_wfb_spec; reflexivity).
  split; [exact Hwf |]. split; [reflexivity |].
  destruct (C7_lda_immediate_flags ram lda_start Hwf eq_refl) as [Hlda _].
  destruct (Hlda eq_refl) as (Hn & Ha & Hp & Hz & Hs & _).
  rewrite Hn, Ha, Hp, Hz, Hs. repeat split; reflexivity.
Defined.

(** C7, as stated for every load, fails: LDX #$00 is a load of the 6502, but
    the core has no case for opcode 0xA2; the step leaves X and the Zero flag
    as they were and does not consume the operand. *)
Lemma C7_ldx_not_a_load :
  fetched_opcode ldx_start = 0xA2
  /\ ram_get (Old.host ldx_start) 0x0201 = 0
  /\ flag FLAG_ZERO (status (Old.cpu ldx_start)) = false
  /\ Old.cpu_step ldx_start = (2, add_cycles 2 (after_fetch ldx_start))
  /\ x (Old.cpu (snd (Old.cpu_step ldx_start))) = 0x55
  /\ flag FLAG_ZERO (status (Old.cpu (snd (Old.cpu_step ldx_start)))) = false
  /\ pc (Old.cpu (snd (Old.cpu_step ldx_start))) = 0x0201.
Proof. repeat split; vm_compute; reflexivity. Qed.

(** C8 (amended): step() returns 2 for LDA immediate, 7 for BRK, 6 for RTI,
    3 for JMP absolute and 5 for JMP indirect; LDA absolute (0xAD) and LDA
    absolute,X (0xBD) have no case in the core and return 2, page cross or
    not. *)
Theorem C8_cycle_costs :
  forall (W : Type) (e : Old.emu W),
    cpu_wf (Old.cpu e) ->
    services_interrupt e = false ->
    let op := fetched_opcode e in
    let n := fst (Old.cpu_step e) in
    (op = 0xA9 -> n = 2) /\ (op = 0x00 -> n = 7) /\ (op = 0x40 -> n = 6)
    /\ (op = 0x4C -> n = 3) /\ (op = 0x6C -> n = 5)
    /\ (op = 0xAD -> n = 2) /\ (op = 0xBD -> n = 2).
Proof.
  intros W e Hwf Hs op n. subst op n.
  repeat split; intros Hop.
  - rewrite old_step_lda_imm by assumption. reflexivity.
  - rewrite old_step_brk by assumption. reflexivity.
  - rewrite old_step_rti by assumption. reflexivity.
  - rewrite old_step_jmp_abs by assumption. reflexivity.
  - rewrite old_step_jmp_ind by assumption. reflexivity.
  - rewrite old_step_unknown; [reflexivity | assumption ..| rewrite Hop; reflexivity].
  - rewrite old_step_unknown; [reflexivity | assumption ..| rewrite Hop; reflexivity].
Qed.

Lemma C8_cycle_costs_witness :
  cpu_wf (Old.cpu brk_rti_start)
  /\ fetched_opcode brk_rti_start = 0x00
  /\ fst (Old.cpu_step brk_rti_start) = 7.
Proof.
  assert (Hwf : cpu_wf (Old.cpu brk_rti_start)) by (apply cpu_wfb_spec; reflexivity).
  split; [exact Hwf |]. split; [reflexivity |].
  destruct (C8_cycle_costs ram brk_rti_start Hwf eq_refl) as (_ & Hbrk & _).
  apply Hbrk. reflexivity.
Defined.

(** C8, as stated, fails: LDA absolute is documented at 4 cycles, and the step
    that fetches its opcode 0xAD returns 2. *)
Lemma C8_lda_absolute_two_cycles :
  fetched_opcode lda_abs_start = 0xAD
  /\ services_interrupt lda_abs_start = false
  /\ fst (Old.cpu_step lda_abs_start) = 2
  /\ fst (Old.cpu_step lda_abs_start) <> 4.
Proof. repeat split; try (vm_compute; reflexivity). vm_compute. discriminate. Qed.

(** C9 (amended): step() does not force bit 5 of the status register.
    Interrupt service and every instruction other than RTI leave bit 5 as it
    was, so it reads 1 after the step when it read 1 before; RTI loads the
    status register with the byte pulled from the stack, unmodified, bit 5
    included. *)
Theorem C9_constant_bit :
  forall (W : Type) (e : Old.emu W),
    cpu_wf (Old.cpu e) ->
    let c' := Old.cpu (snd (Old.cpu_step e)) in
    ((services_interrupt e = true \/ fetched_opcode e <> 0x40) ->
       flag FLAG_CONSTANT (status c') = flag FLAG_CONSTANT (status (Old.cpu e)))
    /\ (services_interrupt e = false -> fetched_opcode e = 0x40 ->
          let e1 := after_fetch e in
          status c'
          = fst (bus_read (Old.memory_read e1) (0x0100 + u8 (sp (Old.cpu e1) + 1))
                   (Old.host e1))).
Proof.
  intros W e Hwf c'. subst c'.
  assert (Hst : 0 <= status (Old.cpu e) < 256) by (unfold cpu_wf in Hwf; tauto).
  destruct (set_interrupt_flags _ Hst) as (_ & Hconst & _).
  split.
  - intros Hcase.
    destruct (services_interrupt e) eqn:Hs.
    + unfold services_interrupt in Hs. apply orb_true_iff in Hs.
      destruct Hs as [Hn | Hi].
      * rewrite old_step_nmi by assumption. exact Hconst.
      * rewrite old_step_irq by assumption. exact Hconst.
    + destruct Hcase as [Hcase | Hop]; [discriminate |].
      destruct (implemented (fetched_opcode e)) eqn:Himpl.
      * apply implemented_cases in Himpl.
        destruct Himpl as [H0 | [H0 | [H0 | [H0 | [H0 | H0]]]]].
        -- rewrite old_step_brk by assumption. exact Hconst.
        -- rewrite old_step_jmp_abs by assumption. reflexivity.
        -- rewrite old_step_jmp_ind by assumption. reflexivity.
        -- rewrite old_step_lda_imm by assumption.
           cbn [snd add_cycles Old.cpu Old.with_cpu set_cycles status].
           apply lda_flags; [assumption | apply bus_read_range |].
           cbn. tauto.
        -- rewrite old_step_nop by assumption. reflexivity.
        -- contradiction.
      * rewrite old_step_unknown by assumption. reflexivity.
  - intros Hs Hop e1. rewrite old_step_rti by assumption. reflexivity.
Qed.

Lemma C9_constant_bit_witness :
  cpu_wf (Old.cpu nop_start)
  /\ flag FLAG_CONSTANT (status (Old.cpu (snd (Old.cpu_step nop_start)))) = true.
Proof.
  assert (Hwf : cpu_wf (Old.cpu nop_start)) by (apply cpu_wfb_spec; reflexivity).
  split; [exact Hwf |].
  rewrite (proj1 (C9_constant_bit ram nop_start Hwf)).
  - reflexivity.
  - right. discriminate.
Defined.

(** C9, as stated, fails: with 0x24 in the status register, an RTI that pulls
    the byte 0x00 leaves the status register at 0x00, bit 5 clear. *)
Lemma C9_rti_clears_constant_bit :
  flag FLAG_CONSTANT (status (Old.cpu rti_start)) = true
  /\ fetched_opcode rti_start = 0x40
  /\ fst (Old.cpu_step rti_start) = 6
  /\ status (Old.cpu (snd (Old.cpu_step rti_start))) = 0x00
  /\ flag FLAG_CONSTANT (status (Old.cpu (snd (Old.cpu_step rti_start)))) = false.
Proof. repeat split; vm_compute; reflexivity. Qed.
(** ** Further properties of the two cores *)

Lemma wrap_set_get_state_small_witness :
  cpu_wf (at_0200 0x24)
  /\ fst (Wrap.cpu_get_state (Some idle_cpu)
            (snd (Wrap.cpu_set_state (Some (at_0200 0x24)) (wrap_boot idle_core 0 0 reset_bus))))
     = Some (at_0200 0x24).
Proof.
  assert (Hwf : cpu_wf (at_0200 0x24)) by (apply cpu_wfb_spec; reflexivity).
  split; [exact Hwf |].
  apply (wrap_set_get_state_small (wrap_boot idle_core 0 0 reset_bus) (at_0200 0x24)
           idle_cpu Hwf).
  reflexivity.
Defined.

(** BRK in the old core: the program counter pushed is the address of the
    opcode plus 2, the status byte pushed has the Break flag set, the vector
    is 0xFFFE/0xFFFF, InterruptDisable is set, and the step returns 7. *)
Theorem brk_service_sequence :
  forall (W : Type) (e : Old.emu W),
    cpu_wf (Old.cpu e) ->
    services_interrupt e = false ->
    fetched_opcode e = 0x00 ->
    let e1 := after_fetch e in
    Old.cpu_step e
    = (7, add_cycles 7
            (interrupt_service 0xFFFE (Z.lor (status (Old.cpu e)) FLAG_BREAK)
               (Old.with_cpu (set_pc (u16 (pc (Old.cpu e) + 2)) (Old.cpu e1)) e1)))
    /\ flag FLAG_BREAK (Z.lor (status (Old.cpu e)) FLAG_BREAK) = true.
Proof.
  intros W e Hwf Hs Hop e1. split.
  - rewrite old_step_brk by assumption. fold e1.
    destruct e as [[p s ra rx ry st cy] irq nmi rd wr w].
    cbn [e1 after_fetch Old.with_cpu Old.with_host set_pc Old.cpu pc status].
    rewrite u16_succ. replace (p + 1 + 1) with (p + 2) by lia. reflexivity.
  - unfold flag, c_true. apply negb_true_iff, Z.eqb_neq.
    intros H0. apply (f_equal (fun v => Z.testbit v 4)) in H0.
    rewrite Z.land_spec, Z.lor_spec, orb_true_r in H0. discriminate H0.
Qed.

Lemma brk_service_sequence_witness :
  cpu_wf (Old.cpu brk_rti_start)
  /\ fst (Old.cpu_step brk_rti_start) = 7
  /\ firstn 3 (Old.host (snd (Old.cpu_step brk_rti_start)))
     = [(0x01FB, 0x30); (0x01FC, 0x02); (0x01FD, 0x02)]
  /\ pc (Old.cpu (snd (Old.cpu_step brk_rti_start))) = 0x0300.
Proof.
  assert (Hwf : cpu_wf (Old.cpu brk_rti_start)) by (apply cpu_wfb_spec; reflexivity).
  split; [exact Hwf |].
  destruct (brk_service_sequence ram brk_rti_start Hwf eq_refl eq_refl) as (Hstep & _).
  rewrite Hstep. repeat split; reflexivity.
Defined.

(** ** Memory buses *)

Lemma ram_memory_bus : memory_bus ram_read ram_write ram_get.
Proof.
  split.
  - reflexivity.
  - intros addr v w. cbn. rewrite Z.eqb_refl. reflexivity.
  - intros addr addr' v w Hne. cbn.
    destruct (addr =? addr') eqn:E; [| reflexivity].
    apply Z.eqb_eq in E. congruence.
Qed.

Lemma old_boot_on_memory_bus c irq nmi m : on_memory_bus ram_get (old_boot c irq nmi m).
Proof.
  exists ram_read, ram_write.
  split; [reflexivity |]. split; [reflexivity |]. apply ram_memory_bus.
Qed.

Section MemoryBus.
Context {W : Type} (rd : read_func_t W) (wr : write_func_t W) (peek : W -> Z -> Z).
Hypothesis Hbus : memory_bus rd wr peek.

Lemma bus_read_mem addr w : bus_read (Some rd) addr w = (peek8 peek w addr, w).
Proof. unfold bus_read, peek8. rewrite (mb_read _ _ _ Hbus). reflexivity. Qed.

Lemma bus_read_word_mem lo_addr hi_addr w :
  bus_read_word (Some rd) lo_addr hi_addr w
  = (word_of (peek8 peek w lo_addr) (peek8 peek w hi_addr), w).
Proof.
  unfold bus_read_word. cbv zeta. rewrite (bus_read_mem lo_addr w). cbn [fst snd].
  rewrite bus_read_mem. reflexivity.
Qed.

Lemma peek8_write_same addr v w : is_byte v -> peek8 peek (wr addr v w) addr = v.
Proof. intros Hv. unfold peek8. rewrite (mb_write_same _ _ _ Hbus). apply u8_id, Hv. Qed.

Lemma peek8_write_other addr addr' v w :
  addr' <> addr -> peek8 peek (wr addr v w) addr' = peek8 peek w addr'.
Proof. intros Hne. unfold peek8. rewrite (mb_write_other _ _ _ Hbus) by assumption. reflexivity. Qed.

End MemoryBus.

(** ** The stack *)

Lemma stack_cell_inj s i j : 0 <= i < j -> j < 256 + i -> stack_cell s i <> stack_cell s j.
Proof.
  unfold stack_cell, u8. intros Hij Hj H.
  Z.div_mod_to_equations. lia.
Qed.

Lemma stack_cell_0 s : is_byte s -> stack_cell s 0 = 0x0100 + s.
Proof. intros Hs. unfold stack_cell. rewrite Z.sub_0_r, u8_id by exact Hs. reflexivity. Qed.

Lemma stack_cell_below s i : stack_cell (u8 (s - 1)) i = stack_cell s (i + 1).
Proof. unfold stack_cell. rewrite u8_pred. do 2 f_equal. lia. Qed.

Lemma stack_cell_page s i : 0x0100 <= stack_cell s i <= 0x01FF.
Proof. unfold stack_cell. pose proof (u8_range (s - i)). lia. Qed.

Section Stack.
Context {W : Type} (peek : W -> Z -> Z).
Implicit Type e : Old.emu W.

Lemma push6502_mem e v :
  on_memory_bus peek e -> is_byte (sp (Old.cpu e)) -> is_byte v ->
  exists wr, Old.memory_write e = Some wr
    /\ Old.push6502 v e
       = (tt, Old.with_cpu (set_sp (u8 (sp (Old.cpu e) - 1)) (Old.cpu e))
                (Old.with_host (wr (0x0100 + sp (Old.cpu e)) v (Old.host e)) e)).
Proof.
  intros (rd & wr & Hrd & Hwr & Hbus) Hs Hv. exists wr. split; [exact Hwr |].
  destruct e as [[p s ra rx ry st cy] irq nmi rd0 wr0 w].
  cbn [Old.memory_read Old.memory_write Old.cpu sp] in *. subst rd0 wr0.
  run_old. rewrite (stack_addr s Hs), (u8_id v Hv). reflexivity.
Qed.

Lemma pull6502_mem e :
  on_memory_bus peek e ->
  Old.pull6502 e
  = (peek8 peek (Old.host e) (0x0100 + u8 (sp (Old.cpu e) + 1)),
     Old.with_cpu (set_sp (u8 (sp (Old.cpu e) + 1)) (Old.cpu e)) e).
Proof.
  intros (rd & wr & Hrd & Hwr & Hbus).
  destruct e as [[p s ra rx ry st cy] irq nmi rd0 wr0 w].
  cbn [Old.memory_read Old.memory_write Old.cpu sp] in *. subst rd0 wr0.
  run_old. rewrite (stack_addr (u8 (s + 1))) by apply u8_range.
  rewrite (mb_read _ _ _ Hbus). reflexivity.
Qed.

Lemma pull_n_S k e :
  pull_n (S k) e
  = (fst (Old.pull6502 e) :: fst (pull_n k (snd (Old.pull6502 e))),
     snd (pull_n k (snd (Old.pull6502 e)))).
Proof.
  cbn [pull_n]. unfold bind, ret.
  destruct (Old.pull6502 e) as [v e1]. cbn [fst snd].
  destruct (pull_n k e1) as [l e2]. reflexivity.
Qed.

Lemma pull_n_last k : forall e,
  pull_n (S k) e
  = (fst (pull_n k e) ++ [fst (Old.pull6502 (snd (pull_n k e)))],
     snd (Old.pull6502 (snd (pull_n k e)))).
Proof.
  induction k as [| k IH]; intros e.
  - rewrite pull_n_S. reflexivity.
  - rewrite (pull_n_S (S k) e), IH, (pull_n_S k e). reflexivity.
Qed.

Lemma on_memory_bus_frame e e' :
  Old.memory_read e' = Old.memory_read e -> Old.memory_write e' = Old.memory_write e ->
  on_memory_bus peek e -> on_memory_bus peek e'.
Proof.
  intros Hr Hw (rd & wr & Hrd & Hwr & Hbus). exists rd, wr.
  rewrite Hr, Hw. auto.
Qed.

(** Pushing a list of at most 256 bytes and pulling as many gives the bytes
    back last pushed first, leaves the machine as it was but for the host
    memory, and in the host memory changes only the stack cells written. *)
Lemma push_pull_gen (l : list Z) : forall e,
  on_memory_bus peek e -> is_byte (sp (Old.cpu e)) -> Forall is_byte l ->
  (length l <= 256)%nat ->
  pull_n (length l) (snd (push_all l e))
  = (rev l, Old.with_host (Old.host (snd (push_all l e))) e)
  /\ sp (Old.cpu (snd (push_all l e))) = u8 (sp (Old.cpu e) - Z.of_nat (length l))
  /\ forall addr,
       (forall i, 0 <= i < Z.of_nat (length l) -> addr <> stack_cell (sp (Old.cpu e)) i) ->
       peek (Old.host (snd (push_all l e))) addr = peek (Old.host e) addr.
Proof.
  induction l as [| v l IH]; intros e Hbus Hs Hl Hlen.
  - cbn. rewrite Z.sub_0_r, u8_id by exact Hs.
    destruct e. repeat split; reflexivity.
  - inversion Hl as [| v0 l0 Hv Hl']; subst v0 l0.
    destruct (push6502_mem e v Hbus Hs Hv) as (wr & Hwr & Hpush).
    set (e1 := Old.with_cpu (set_sp (u8 (sp (Old.cpu e) - 1)) (Old.cpu e))
                 (Old.with_host (wr (0x0100 + sp (Old.cpu e)) v (Old.host e)) e)) in *.
    assert (Hall : snd (push_all (v :: l) e) = snd (push_all l e1)).
    { cbn [push_all]. unfold bind. rewrite Hpush. reflexivity. }
    assert (Hbus1 : on_memory_bus peek e1)
      by (apply (on_memory_bus_frame e); [destruct e; reflexivity .. | exact Hbus]).
    assert (Hs1 : is_byte (sp (Old.cpu e1))) by (destruct e; apply u8_range).
    cbn [length] in Hlen.
    destruct (IH e1 Hbus1 Hs1 Hl' ltac:(lia)) as (Hpull & Hsp & Hmem).
    set (e2 := snd (push_all l e1)) in *.
    assert (Hsp1 : sp (Old.cpu e1) = u8 (sp (Old.cpu e) - 1)) by (destruct e; reflexivity).
    assert (Hhost1 : Old.host e1 = wr (0x0100 + sp (Old.cpu e)) v (Old.host e))
      by (destruct e; reflexivity).
    destruct Hbus as (rd & wr' & Hrd & Hwr' & Hmb).
    assert (wr' = wr) by congruence. subst wr'.
    assert (Htop : peek (Old.host e2) (0x0100 + sp (Old.cpu e)) = v).
    { rewrite Hmem.
      - rewrite Hhost1. apply (mb_write_same _ _ _ Hmb).
      - intros i Hi. rewrite Hsp1, stack_cell_below, <- (stack_cell_0 _ Hs).
        apply stack_cell_inj; lia. }
    rewrite Hall. fold e2. split; [| split].
    + cbn [length]. rewrite pull_n_last, Hpull. cbn [fst snd rev].
      rewrite pull6502_mem
        by (apply (on_memory_bus_frame e1); [reflexivity .. | exact Hbus1]).
      unfold peek8.
      destruct e as [[p s ra rx ry st cy] irq nmi rd0 wr0 w].
      cbn [Old.cpu Old.host Old.with_host Old.with_cpu set_sp sp e1] in *.
      rewrite u8_succ. replace (s - 1 + 1) with s by lia.
      rewrite (u8_id s Hs), Htop, (u8_id v Hv). reflexivity.
    + rewrite Hsp, Hsp1, u8_pred. f_equal. cbn [length]. lia.
    + intros addr Haddr. rewrite Hmem.
      * rewrite Hhost1. apply (mb_write_other _ _ _ Hmb).
        rewrite <- (stack_cell_0 _ Hs). apply Haddr. cbn [length]. lia.
      * intros i Hi. rewrite Hsp1, stack_cell_below. apply Haddr. cbn [length]. lia.
Qed.

End Stack.

(** Push/pull round trip of [push6502] and [pull6502] on a memory bus: after
    pushing at most 256 bytes, pulling as many returns them in reverse order
    and restores the stack pointer and every other register; the stack
    pointer in between is the original one minus the number of bytes, modulo
    256; and only the stack cells written differ in memory, all of them in
    page 1. *)
Theorem stack_push_pull_roundtrip :
  forall (W : Type) (peek : W -> Z -> Z) (e : Old.emu W) (l : list Z),
    on_memory_bus peek e ->
    is_byte (sp (Old.cpu e)) ->
    Forall is_byte l ->
    (length l <= 256)%nat ->
    let pushed := snd (push_all l e) in
    let r := pull_n (length l) pushed in
    fst r = rev l
    /\ Old.cpu (snd r) = Old.cpu e
    /\ sp (Old.cpu pushed) = u8 (sp (Old.cpu e) - Z.of_nat (length l))
    /\ (forall addr,
          (forall i, 0 <= i < Z.of_nat (length l) -> addr <> stack_cell (sp (Old.cpu e)) i) ->
          peek (Old.host (snd r)) addr = peek (Old.host e) addr)
    /\ (forall addr, addr < 0x0100 \/ 0x01FF < addr ->
          peek (Old.host (snd r)) addr = peek (Old.host e) addr).
Proof.
  intros W peek e l Hbus Hs Hl Hlen pushed r.
  destruct (push_pull_gen peek l e Hbus Hs Hl Hlen) as (Hpull & Hsp & Hmem).
  subst r pushed. rewrite Hpull. cbn [fst snd].
  split; [reflexivity |]. split; [destruct e; reflexivity |].
  split; [exact Hsp |].
  assert (Hhost : forall h, Old.host (Old.with_host h e) = h) by (destruct e; reflexivity).
  rewrite Hhost. split; [exact Hmem |].
  intros addr Haddr. apply Hmem. intros i Hi.
  pose proof (stack_cell_page (sp (Old.cpu e)) i). lia.
Qed.

Lemma stack_push_pull_roundtrip_witness :
  on_memory_bus ram_get wrap_stack_start
  /\ sp (Old.cpu (snd (push_all [0x11; 0x22; 0x33] wrap_stack_start))) = 0xFE
  /\ fst (pull_n 3 (snd (push_all [0x11; 0x22; 0x33] wrap_stack_start))) = [0x33; 0x22; 0x11]
  /\ Old.cpu (snd (pull_n 3 (snd (push_all [0x11; 0x22; 0x33] wrap_stack_start))))
     = Old.cpu wrap_stack_start.
Proof.
  assert (Hbus : on_memory_bus ram_get wrap_stack_start) by apply old_boot_on_memory_bus.
  assert (Hs : is_byte (sp (Old.cpu wrap_stack_start))) by (unfold is_byte; cbn; lia).
  assert (Hl : Forall is_byte [0x11; 0x22; 0x33])
    by (repeat (apply Forall_cons; [unfold is_byte; lia |]); apply Forall_nil).
  assert (Hlen : (length [0x11; 0x22; 0x33] <= 256)%nat) by (cbn; lia).
  destruct (stack_push_pull_roundtrip ram ram_get wrap_stack_start [0x11; 0x22; 0x33]
              Hbus Hs Hl Hlen) as (Hrev & Hcpu & Hsp & _).
  split; [exact Hbus |]. split; [exact Hsp |]. split; [exact Hrev | exact Hcpu].
Defined.

(** ** One call of [cpu_step] on a memory bus *)

Ltac open_bus H e :=
  let rd := fresh "rd" in
  let wr := fresh "wr" in
  let Hrd := fresh "Hrd" in
  let Hwr := fresh "Hwr" in
  let Hmb := fresh "Hmb" in
  destruct H as (rd & wr & Hrd & Hwr & Hmb);
  destruct e as [[p s ra rx ry st cy] irq nmi rd0 wr0 w];
  cbn [Old.memory_read Old.memory_write] in Hrd, Hwr; subst rd0 wr0.

Ltac simpl_old :=
  cbv beta iota zeta delta
    [Old.cpu Old.irq_pending Old.nmi_pending Old.memory_read Old.memory_write
     Old.host Old.with_cpu Old.with_irq Old.with_nmi Old.with_host
     set_pc set_sp set_a set_status set_cycles pc sp a x y status cycles
     add_cycles after_fetch interrupt_service jump_via rti_effect fetched_opcode
     apply_writes fold_left bus_write];
  cbn [fst snd].

Section StepMem.
Context {W : Type} (peek : W -> Z -> Z).
Implicit Type e : Old.emu W.

Lemma fetched_opcode_mem e :
  on_memory_bus peek e -> fetched_opcode e = peek8 peek (Old.host e) (pc (Old.cpu e)).
Proof.
  intros Hbus. open_bus Hbus e. simpl_old. rewrite (bus_read_mem _ _ _ Hmb). reflexivity.
Qed.

Lemma after_fetch_mem e :
  on_memory_bus peek e ->
  after_fetch e = Old.with_cpu (set_pc (u16 (pc (Old.cpu e) + 1)) (Old.cpu e)) e.
Proof.
  intros Hbus. open_bus Hbus e. simpl_old. rewrite (bus_read_mem _ _ _ Hmb). reflexivity.
Qed.

Lemma after_fetch_on_bus e : on_memory_bus peek e -> on_memory_bus peek (after_fetch e).
Proof. apply on_memory_bus_frame; destruct e; reflexivity. Qed.

Lemma interrupt_service_mem e vector pushed :
  on_memory_bus peek e -> is_byte (sp (Old.cpu e)) ->
  let c := Old.cpu e in
  let h := apply_writes (Old.memory_write e)
             [(0x0100 + sp c, hi_byte (pc c)); (stack_cell (sp c) 1, lo_byte (pc c));
              (stack_cell (sp c) 2, pushed)] (Old.host e) in
  interrupt_service vector pushed e
  = Old.mk_emu
      (mk_cpu (word_of (peek8 peek h vector) (peek8 peek h (vector + 1)))
              (u8 (sp c - 3)) (a c) (x c) (y c) (Z.lor (status c) FLAG_INTERRUPT) (cycles c))
      (Old.irq_pending e) (Old.nmi_pending e) (Old.memory_read e) (Old.memory_write e) h.
Proof.
  intros Hbus Hs. open_bus Hbus e. simpl_old.
  rewrite (bus_read_word_mem _ _ _ Hmb). reflexivity.
Qed.

Lemma jump_via_mem e lo_addr hi_addr :
  on_memory_bus peek e ->
  jump_via lo_addr hi_addr e
  = Old.with_cpu
      (set_pc (word_of (peek8 peek (Old.host e) lo_addr) (peek8 peek (Old.host e) hi_addr))
         (Old.cpu e)) e.
Proof.
  intros Hbus. open_bus Hbus e. simpl_old.
  rewrite (bus_read_word_mem _ _ _ Hmb). reflexivity.
Qed.

Lemma rti_effect_mem e :
  on_memory_bus peek e ->
  let c := Old.cpu e in
  let h := Old.host e in
  rti_effect e
  = Old.with_cpu
      (mk_cpu (word_of (peek8 peek h (0x0100 + u8 (sp c + 2)))
                       (peek8 peek h (0x0100 + u8 (sp c + 3))))
              (u8 (sp c + 3)) (a c) (x c) (y c) (peek8 peek h (0x0100 + u8 (sp c + 1)))
              (cycles c)) e.
Proof.
  intros Hbus. open_bus Hbus e. simpl_old.
  rewrite (bus_read_mem _ _ _ Hmb). cbn [fst snd].
  rewrite (bus_read_word_mem _ _ _ Hmb). reflexivity.
Qed.

(** The host memory after one call of [cpu_step]. *)
Lemma old_step_host e :
  on_memory_bus peek e -> cpu_wf (Old.cpu e) ->
  Old.host (snd (Old.cpu_step e))
  = apply_writes (Old.memory_write e) (step_writes e) (Old.host e).
Proof.
  intros Hbus Hwf.
  assert (Hs : is_byte (sp (Old.cpu e))) by (unfold cpu_wf in Hwf; unfold is_byte; tauto).
  unfold step_writes. destruct (services_interrupt e) eqn:Hsi.
  - unfold services_interrupt in Hsi. apply orb_true_iff in Hsi.
    destruct Hsi as [Hn | Hi];
      [rewrite old_step_nmi by assumption | rewrite old_step_irq by assumption];
      cbn [snd]; rewrite interrupt_service_mem by assumption; destruct e; reflexivity.
  - assert (Hbus1 := after_fetch_on_bus e Hbus).
    destruct (fetched_opcode e =? 0) eqn:Hop0.
    + apply Z.eqb_eq in Hop0. rewrite old_step_brk by assumption.
      cbv zeta. rewrite after_fetch_mem by assumption. cbn [snd].
      rewrite interrupt_service_mem;
        [| apply (on_memory_bus_frame peek e); [destruct e; reflexivity .. | exact Hbus]
         | destruct e; exact Hs].
      destruct e as [[p s ra rx ry st cy] irq nmi rd0 wr0 w]. simpl_old.
      rewrite u16_succ. replace (p + 1 + 1) with (p + 2) by lia. reflexivity.
    + apply Z.eqb_neq in Hop0.
      destruct (implemented (fetched_opcode e)) eqn:Himpl.
      * apply implemented_cases in Himpl.
        destruct Himpl as [H0 | [H0 | [H0 | [H0 | [H0 | H0]]]]].
        -- contradiction.
        -- rewrite old_step_jmp_abs by assumption. cbv zeta. cbn [snd].
           rewrite jump_via_mem, after_fetch_mem by assumption. destruct e; reflexivity.
        -- rewrite old_step_jmp_ind by assumption. cbv zeta. cbn [snd].
           rewrite jump_via_mem
             by (apply (on_memory_bus_frame peek (after_fetch e));
                 [reflexivity .. | exact Hbus1]).
           rewrite after_fetch_mem by assumption.
           open_bus Hbus e. simpl_old. rewrite (bus_read_word_mem _ _ _ Hmb). reflexivity.
        -- rewrite old_step_lda_imm by assumption. cbv zeta. cbn [snd].
           rewrite after_fetch_mem by assumption.
           open_bus Hbus e. simpl_old. rewrite (bus_read_mem _ _ _ Hmb). reflexivity.
        -- rewrite old_step_nop, after_fetch_mem by assumption. destruct e; reflexivity.
        -- rewrite old_step_rti by assumption. cbn [snd].
           rewrite rti_effect_mem, after_fetch_mem by assumption. destruct e; reflexivity.
      * rewrite old_step_unknown, after_fetch_mem by assumption. destruct e; reflexivity.
Qed.

End StepMem.

(** ** Runs on a memory bus *)

Section RunsMem.
Context {W : Type} (peek : W -> Z -> Z).
Implicit Type e : Old.emu W.

Lemma old_step_callbacks e :
  cpu_wf (Old.cpu e) ->
  Old.memory_read (snd (Old.cpu_step e)) = Old.memory_read e
  /\ Old.memory_write (snd (Old.cpu_step e)) = Old.memory_write e.
Proof.
  intros Hwf. destruct (services_interrupt e) eqn:Hsi.
  - unfold services_interrupt in Hsi. apply orb_true_iff in Hsi.
    destruct Hsi as [Hn | Hi];
      [rewrite old_step_nmi by assumption | rewrite old_step_irq by assumption];
      destruct e; split; reflexivity.
  - destruct (old_step_instr_post e Hwf Hsi) as (_ & _ & _ & _ & Hr & Hw). auto.
Qed.

Lemma old_step_on_bus e :
  cpu_wf (Old.cpu e) -> on_memory_bus peek e -> on_memory_bus peek (snd (Old.cpu_step e)).
Proof.
  intros Hwf. destruct (old_step_callbacks e Hwf) as [Hr Hw].
  apply on_memory_bus_frame; assumption.
Qed.

Lemma steps_on_bus n e :
  cpu_wf (Old.cpu e) -> on_memory_bus peek e ->
  cpu_wf (Old.cpu (snd (steps n e))) /\ on_memory_bus peek (snd (steps n e)).
Proof.
  intros Hwf Hbus. induction n as [| n [IHw IHb]].
  - cbn. auto.
  - rewrite steps_last. split; [apply old_step_wf, IHw | apply old_step_on_bus; assumption].
Qed.

Lemma step_writes_page e :
  is_byte (sp (Old.cpu e)) ->
  Forall (fun aw => 0x0100 <= fst aw <= 0x01FF) (step_writes e).
Proof.
  intros Hs. unfold step_writes, is_byte in *.
  destruct (services_interrupt e); [| destruct (fetched_opcode e =? 0)];
    repeat (apply Forall_cons; [cbn [fst]; try apply stack_cell_page; lia |]);
    apply Forall_nil.
Qed.

Lemma apply_writes_outside rd wr (Hmb : memory_bus rd wr peek) (l : list (Z * Z)) addr :
  forall w, Forall (fun aw => fst aw <> addr) l ->
  peek (apply_writes (Some wr) l w) addr = peek w addr.
Proof.
  induction l as [| [a0 v0] l IH]; intros w Hl.
  - reflexivity.
  - inversion Hl as [| ? ? Hne Hl']; subst.
    unfold apply_writes. cbn [fold_left fst snd bus_write].
    change (peek (apply_writes (Some wr) l (wr a0 v0 w)) addr = peek w addr).
    rewrite IH by assumption. apply (mb_write_other _ _ _ Hmb). cbn in Hne. congruence.
Qed.

Lemma old_step_outside_stack e addr :
  on_memory_bus peek e -> cpu_wf (Old.cpu e) ->
  addr < 0x0100 \/ 0x01FF < addr ->
  peek (Old.host (snd (Old.cpu_step e))) addr = peek (Old.host e) addr.
Proof.
  intros Hbus Hwf Haddr. rewrite (old_step_host peek e Hbus Hwf).
  assert (Hs : is_byte (sp (Old.cpu e))) by (unfold cpu_wf in Hwf; unfold is_byte; tauto).
  destruct Hbus as (rd & wr & Hrd & Hwr & Hmb). rewrite Hwr.
  apply (apply_writes_outside rd wr Hmb).
  eapply Forall_impl; [| apply step_writes_page, Hs].
  cbn beta. intros aw Hpage. lia.
Qed.

End RunsMem.

(** What [cpu_step] never writes: on a memory bus, whatever the program and
    however many calls are made, every memory cell outside page 1
    (0x0100-0x01FF) keeps its content. *)
Theorem steps_write_only_stack_page :
  forall (W : Type) (peek : W -> Z -> Z) (n : nat) (e : Old.emu W) (addr : Z),
    on_memory_bus peek e ->
    cpu_wf (Old.cpu e) ->
    addr < 0x0100 \/ 0x01FF < addr ->
    peek (Old.host (snd (steps n e))) addr = peek (Old.host e) addr.
Proof.
  intros W peek n e addr Hbus Hwf Haddr. induction n as [| n IH].
  - reflexivity.
  - rewrite steps_last.
    destruct (steps_on_bus peek n e Hwf Hbus) as [Hwn Hbn].
    rewrite old_step_outside_stack by assumption. exact IH.
Qed.

Lemma steps_write_only_stack_page_witness :
  on_memory_bus ram_get brk_rti_start
  /\ cpu_wf (Old.cpu brk_rti_start)
  /\ ram_get (Old.host (snd (steps 2 brk_rti_start))) 0xFFFE
     = ram_get (Old.host brk_rti_start) 0xFFFE.
Proof.
  assert (Hbus : on_memory_bus ram_get brk_rti_start) by apply old_boot_on_memory_bus.
  assert (Hwf : cpu_wf (Old.cpu brk_rti_start)) by (apply cpu_wfb_spec; reflexivity).
  split; [exact Hbus |]. split; [exact Hwf |].
  apply (steps_write_only_stack_page ram ram_get 2 brk_rti_start 0xFFFE Hbus Hwf).
  right. reflexivity.
Defined.

(** The old core has no store instruction: a call of [cpu_step] that neither
    services an interrupt nor executes BRK makes no bus write; on a memory bus
    it leaves the host memory exactly as it was. *)
Theorem instructions_never_write :
  forall (W : Type) (peek : W -> Z -> Z) (e : Old.emu W),
    on_memory_bus peek e ->
    cpu_wf (Old.cpu e) ->
    services_interrupt e = false ->
    fetched_opcode e <> 0x00 ->
    Old.host (snd (Old.cpu_step e)) = Old.host e.
Proof.
  intros W peek e Hbus Hwf Hsi Hop.
  rewrite (old_step_host peek e Hbus Hwf). unfold step_writes.
  rewrite Hsi. apply Z.eqb_neq in Hop. rewrite Hop. reflexivity.
Qed.

Lemma instructions_never_write_witness :
  on_memory_bus ram_get lda_start
  /\ cpu_wf (Old.cpu lda_start)
  /\ Old.host (snd (Old.cpu_step lda_start)) = Old.host lda_start.
Proof.
  assert (Hbus : on_memory_bus ram_get lda_start) by apply old_boot_on_memory_bus.
  assert (Hwf : cpu_wf (Old.cpu lda_start)) by (apply cpu_wfb_spec; reflexivity).
  split; [exact Hbus |]. split; [exact Hwf |].
  apply (instructions_never_write ram ram_get lda_start Hbus Hwf).
  - reflexivity.
  - vm_compute. discriminate.
Defined.

(** ** Interrupt service and RTI *)

Lemma word_of_bytes p : word_of (lo_byte p) (hi_byte p) = p.
Proof. unfold word_of, lo_byte, hi_byte. pose proof (Z.div_mod p 256). lia. Qed.

Lemma u64_add_add v m n : u64 (u64 (v + m) + n) = u64 (v + (m + n)).
Proof. unfold u64. rewrite Zplus_mod_idemp_l. f_equal. lia. Qed.

Section ServiceRti.
Context {W : Type} (peek : W -> Z -> Z).
Implicit Type e : Old.emu W.

(** RTI undoes the three pushes of a service sequence: executed in a state
    whose registers and memory are those the sequence left, it restores the
    program counter and the stack pointer and loads the status register with
    the pushed byte. *)
Lemma rti_undoes_service e vector pushed cy' irq' nmi' :
  on_memory_bus peek e -> cpu_wf (Old.cpu e) -> is_byte pushed ->
  let e1 := Old.mk_emu (set_cycles cy' (Old.cpu (interrupt_service vector pushed e)))
              irq' nmi' (Old.memory_read e) (Old.memory_write e)
              (Old.host (interrupt_service vector pushed e)) in
  let c := Old.cpu e in
  rti_effect (after_fetch e1)
  = Old.mk_emu (mk_cpu (pc c) (sp c) (a c) (x c) (y c) pushed cy')
      irq' nmi' (Old.memory_read e) (Old.memory_write e)
      (Old.host (interrupt_service vector pushed e)).
Proof.
  intros Hbus Hwf Hb e1 c.
  assert (Hs : is_byte (sp (Old.cpu e))) by (unfold cpu_wf in Hwf; unfold is_byte; tauto).
  assert (Hbus1 : on_memory_bus peek e1)
    by (apply (on_memory_bus_frame peek e); [reflexivity .. | exact Hbus]).
  rewrite (rti_effect_mem peek) by (apply after_fetch_on_bus, Hbus1).
  rewrite (after_fetch_mem peek) by exact Hbus1.
  subst e1 c. rewrite (interrupt_service_mem peek) by assumption.
  open_bus Hbus e. open_wf Hwf. simpl_old.
  change (256 + s) with (0x0100 + s). rewrite <- (stack_cell_0 s Hsp).
  set (c0 := stack_cell s 0). set (c1 := stack_cell s 1). set (c2 := stack_cell s 2).
  assert (H01 : c0 <> c1) by (apply stack_cell_inj; lia).
  assert (H02 : c0 <> c2) by (apply stack_cell_inj; lia).
  assert (H12 : c1 <> c2) by (apply stack_cell_inj; lia).
  rewrite !u8_succ.
  replace (256 + u8 (s - 3 + 1)) with c2 by (unfold c2, stack_cell; do 2 f_equal; lia).
  replace (256 + u8 (s - 3 + 2)) with c1 by (unfold c1, stack_cell; do 2 f_equal; lia).
  replace (256 + u8 (s - 3 + 3)) with c0 by (unfold c0, stack_cell; do 2 f_equal; lia).
  replace (s - 3 + 3) with s by lia. rewrite (u8_id s Hsp).
  rewrite (peek8_write_same _ _ _ Hmb c2) by exact Hb.
  rewrite (peek8_write_other _ _ _ Hmb c2 c1) by exact H12.
  rewrite (peek8_write_same _ _ _ Hmb c1) by apply lo_byte_range.
  rewrite (peek8_write_other _ _ _ Hmb c2 c0) by exact H02.
  rewrite (peek8_write_other _ _ _ Hmb c1 c0) by exact H01.
  rewrite (peek8_write_same _ _ _ Hmb c0) by (apply hi_byte_range, Hpc).
  rewrite word_of_bytes. reflexivity.
Qed.

Lemma serviced_then_masked e :
  cpu_wf (Old.cpu e) -> services_interrupt e = true ->
  services_interrupt (snd (Old.cpu_step e)) = false.
Proof.
  intros Hwf Hsi.
  assert (Hst : 0 <= status (Old.cpu e) < 256) by (unfold cpu_wf in Hwf; tauto).
  destruct (set_interrupt_flags _ Hst) as (Hset & _).
  unfold services_interrupt in Hsi. apply orb_true_iff in Hsi.
  destruct Hsi as [Hn | Hi].
  - rewrite old_step_nmi by assumption.
    destruct e as [[p s ra rx ry st cy] irq nmi rd wr w].
    unfold services_interrupt, services_nmi, services_irq. simpl_old.
    cbn [status Old.cpu] in Hset. rewrite Hset. cbn. apply andb_false_r.
  - rewrite old_step_irq by assumption.
    unfold services_irq in Hi. rewrite !andb_true_iff in Hi. destruct Hi as [[Hn _] _].
    apply negb_true_iff in Hn.
    destruct e as [[p s ra rx ry st cy] irq nmi rd wr w].
    unfold services_interrupt, services_nmi, services_irq. simpl_old.
    cbn [Old.nmi_pending] in Hn. rewrite Hn. reflexivity.
Qed.

End ServiceRti.

(** A hardware interrupt is transparent to the interrupted program: on a
    memory bus, when [cpu_step] services an NMI or an IRQ and the next call
    executes RTI at the handler, that call returns 6 and leaves the program
    counter, the stack pointer, the status register and A, X, Y exactly as
    they were before the interrupt; the cycle counter has advanced by 13 and
    the callbacks are unchanged. *)
Theorem interrupt_then_rti_restores :
  forall (W : Type) (peek : W -> Z -> Z) (e : Old.emu W),
    on_memory_bus peek e ->
    cpu_wf (Old.cpu e) ->
    services_interrupt e = true ->
    fetched_opcode (snd (Old.cpu_step e)) = 0x40 ->
    fst (Old.cpu_step e) = 7
    /\ fst (Old.cpu_step (snd (Old.cpu_step e))) = 6
    /\ Old.cpu (snd (Old.cpu_step (snd (Old.cpu_step e))))
       = set_cycles (u64 (cycles (Old.cpu e) + 13)) (Old.cpu e)
    /\ Old.memory_read (snd (Old.cpu_step (snd (Old.cpu_step e)))) = Old.memory_read e
    /\ Old.memory_write (snd (Old.cpu_step (snd (Old.cpu_step e)))) = Old.memory_write e.
Proof.
  intros W peek e Hbus Hwf Hsi Hrti.
  assert (Hwf1 := old_step_wf e Hwf).
  assert (Hsi1 := serviced_then_masked e Hwf Hsi).
  assert (Hb : is_byte (status (Old.cpu e))) by (unfold cpu_wf in Hwf; unfold is_byte; tauto).
  rewrite (old_step_rti _ Hwf1 Hsi1 Hrti).
  unfold services_interrupt in Hsi. apply orb_true_iff in Hsi.
  destruct Hsi as [Hn | Hi].
  - rewrite old_step_nmi by assumption. cbn [fst snd].
    pose proof (rti_undoes_service peek e 0xFFFA (status (Old.cpu e))
                  (u64 (cycles (Old.cpu e) + 7)) (Old.irq_pending e) 0 Hbus Hwf Hb) as Hr.
    cbv zeta in Hr.
    replace (add_cycles 7 (Old.with_nmi 0 (interrupt_service 0xFFFA (status (Old.cpu e)) e)))
      with (Old.mk_emu
              (set_cycles (u64 (cycles (Old.cpu e) + 7))
                 (Old.cpu (interrupt_service 0xFFFA (status (Old.cpu e)) e)))
              (Old.irq_pending e) 0 (Old.memory_read e) (Old.memory_write e)
              (Old.host (interrupt_service 0xFFFA (status (Old.cpu e)) e)))
      by (destruct e; reflexivity).
    rewrite Hr. unfold add_cycles. cbn [Old.cpu Old.with_cpu Old.memory_read Old.memory_write
                                        set_cycles pc sp a x y status cycles].
    rewrite u64_add_add. destruct e as [[p s ra rx ry st cy] irq nmi rd wr w].
    repeat split; reflexivity.
  - rewrite old_step_irq by assumption. cbn [fst snd].
    pose proof (rti_undoes_service peek e 0xFFFE (status (Old.cpu e))
                  (u64 (cycles (Old.cpu e) + 7)) 0 (Old.nmi_pending e) Hbus Hwf Hb) as Hr.
    cbv zeta in Hr.
    replace (add_cycles 7 (Old.with_irq 0 (interrupt_service 0xFFFE (status (Old.cpu e)) e)))
      with (Old.mk_emu
              (set_cycles (u64 (cycles (Old.cpu e) + 7))
                 (Old.cpu (interrupt_service 0xFFFE (status (Old.cpu e)) e)))
              0 (Old.nmi_pending e) (Old.memory_read e) (Old.memory_write e)
              (Old.host (interrupt_service 0xFFFE (status (Old.cpu e)) e)))
      by (destruct e; reflexivity).
    rewrite Hr. unfold add_cycles. cbn [Old.cpu Old.with_cpu Old.memory_read Old.memory_write
                                        set_cycles pc sp a x y status cycles].
    rewrite u64_add_add. destruct e as [[p s ra rx ry st cy] irq nmi rd wr w].
    repeat split; reflexivity.
Qed.

Lemma interrupt_then_rti_restores_witness :
  on_memory_bus ram_get both_pending
  /\ cpu_wf (Old.cpu both_pending)
  /\ services_interrupt both_pending = true
  /\ fetched_opcode (snd (Old.cpu_step both_pending)) = 0x40
  /\ Old.cpu (snd (Old.cpu_step (snd (Old.cpu_step both_pending))))
     = set_cycles (u64 (cycles (Old.cpu both_pending) + 13)) (Old.cpu both_pending).
Proof.
  assert (Hbus : on_memory_bus ram_get both_pending) by apply old_boot_on_memory_bus.
  assert (Hwf : cpu_wf (Old.cpu both_pending)) by (apply cpu_wfb_spec; reflexivity).
  assert (Hsi : services_interrupt both_pending = true) by reflexivity.
  assert (Hop : fetched_opcode (snd (Old.cpu_step both_pending)) = 0x40)
    by (vm_compute; reflexivity).
  split; [exact Hbus |]. split; [exact Hwf |]. split; [exact Hsi |]. split; [exact Hop |].
  destruct (interrupt_then_rti_restores ram ram_get both_pending Hbus Hwf Hsi Hop)
    as (_ & _ & Hcpu & _).
  exact Hcpu.
Defined.

(** BRK is not transparent: on a memory bus, BRK followed by RTI at its
    handler resumes two bytes after the BRK opcode with the stack pointer and
    A, X, Y restored, but the status register now has the Break flag set (RTI
    loads the pushed byte, Break included); 13 cycles have passed. *)
Theorem brk_then_rti_sets_break :
  forall (W : Type) (peek : W -> Z -> Z) (e : Old.emu W),
    on_memory_bus peek e ->
    cpu_wf (Old.cpu e) ->
    services_interrupt e = false ->
    fetched_opcode e = 0x00 ->
    fetched_opcode (snd (Old.cpu_step e)) = 0x40 ->
    let c := Old.cpu e in
    fst (Old.cpu_step e) = 7
    /\ fst (Old.cpu_step (snd (Old.cpu_step e))) = 6
    /\ Old.cpu (snd (Old.cpu_step (snd (Old.cpu_step e))))
       = mk_cpu (u16 (pc c + 2)) (sp c) (a c) (x c) (y c)
                (Z.lor (status c) FLAG_BREAK) (u64 (cycles c + 13))
    /\ flag FLAG_BREAK (status (Old.cpu (snd (Old.cpu_step (snd (Old.cpu_step e)))))) = true.
Proof.
  intros W peek e Hbus Hwf Hsi Hbrk Hrti c.
  assert (Hwf1 := old_step_wf e Hwf).
  assert (Hst : 0 <= status (Old.cpu e) < 256) by (unfold cpu_wf in Hwf; tauto).
  assert (Hb : is_byte (Z.lor (status (Old.cpu e)) FLAG_BREAK))
    by (apply lor_byte; [exact Hst | cbv; split; [discriminate | reflexivity]]).
  assert (Hflag : flag FLAG_BREAK (Z.lor (status (Old.cpu e)) FLAG_BREAK) = true).
  { unfold flag, c_true. apply negb_true_iff, Z.eqb_neq.
    intros H0. apply (f_equal (fun v => Z.testbit v 4)) in H0.
    rewrite Z.land_spec, Z.lor_spec, orb_true_r in H0. discriminate H0. }
  set (e0 := Old.with_cpu (set_pc (u16 (pc (Old.cpu e) + 2)) (Old.cpu e)) e).
  assert (Hstep : Old.cpu_step e
                  = (7, add_cycles 7
                          (interrupt_service 0xFFFE (Z.lor (status (Old.cpu e)) FLAG_BREAK) e0))).
  { rewrite old_step_brk by assumption. cbv zeta.
    rewrite (after_fetch_mem peek) by assumption. subst e0.
    destruct e as [[p s ra rx ry st cy] irq nmi rd wr w]. simpl_old.
    rewrite u16_succ. replace (p + 1 + 1) with (p + 2) by lia. reflexivity. }
  assert (Hbus0 : on_memory_bus peek e0)
    by (apply (on_memory_bus_frame peek e); [destruct e; reflexivity .. | exact Hbus]).
  assert (Hwf0 : cpu_wf (Old.cpu e0)).
  { subst e0. clear - Hwf. destruct e as [[p s ra rx ry st cy] irq nmi rd wr w]. open_wf Hwf.
    unfold cpu_wf. simpl_old. repeat split; try lia; apply u16_range. }
  assert (Hsi1 : services_interrupt (snd (Old.cpu_step e)) = false).
  { rewrite Hstep. destruct (set_interrupt_flags _ Hst) as (Hset & _).
    unfold services_interrupt in Hsi. apply orb_false_iff in Hsi. destruct Hsi as [Hn _].
    subst e0. destruct e as [[p s ra rx ry st cy] irq nmi rd wr w].
    unfold services_interrupt, services_nmi, services_irq in *. simpl_old.
    cbn [Old.nmi_pending] in Hn. cbn [status Old.cpu] in Hset.
    rewrite Hn, Hset. cbn. apply andb_false_r. }
  rewrite (old_step_rti _ Hwf1 Hsi1 Hrti). rewrite Hstep. cbn [fst snd].
  pose proof (rti_undoes_service peek e0 0xFFFE (Z.lor (status (Old.cpu e)) FLAG_BREAK)
                (u64 (cycles (Old.cpu e) + 7)) (Old.irq_pending e) (Old.nmi_pending e)
                Hbus0 Hwf0 Hb) as Hr.
  cbv zeta in Hr.
  replace (add_cycles 7 (interrupt_service 0xFFFE (Z.lor (status (Old.cpu e)) FLAG_BREAK) e0))
    with (Old.mk_emu
            (set_cycles (u64 (cycles (Old.cpu e) + 7))
               (Old.cpu (interrupt_service 0xFFFE (Z.lor (status (Old.cpu e)) FLAG_BREAK) e0)))
            (Old.irq_pending e) (Old.nmi_pending e) (Old.memory_read e0) (Old.memory_write e0)
            (Old.host (interrupt_service 0xFFFE (Z.lor (status (Old.cpu e)) FLAG_BREAK) e0)))
    by (subst e0; destruct e; reflexivity).
  rewrite Hr. unfold add_cycles.
  cbn [Old.cpu Old.with_cpu set_cycles pc sp a x y status cycles].
  rewrite u64_add_add. subst c e0. destruct e as [[p s ra rx ry st cy] irq nmi rd wr w].
  cbn [Old.cpu Old.with_cpu set_pc pc sp a x y status cycles] in *.
  repeat split; try reflexivity. exact Hflag.
Qed.

Lemma brk_then_rti_sets_break_witness :
  on_memory_bus ram_get brk_rti_start
  /\ cpu_wf (Old.cpu brk_rti_start)
  /\ flag FLAG_BREAK (status (Old.cpu brk_rti_start)) = false
  /\ Old.cpu (snd (Old.cpu_step (snd (Old.cpu_step brk_rti_start))))
     = mk_cpu 0x0202 0xFD 0 0 0 0x30 13.
Proof.
  assert (Hbus : on_memory_bus ram_get brk_rti_start) by apply old_boot_on_memory_bus.
  assert (Hwf : cpu_wf (Old.cpu brk_rti_start)) by (apply cpu_wfb_spec; reflexivity).
  assert (Hop : fetched_opcode (snd (Old.cpu_step brk_rti_start)) = 0x40)
    by (vm_compute; reflexivity).
  split; [exact Hbus |]. split; [exact Hwf |]. split; [reflexivity |].
  destruct (brk_then_rti_sets_break ram ram_get brk_rti_start Hbus Hwf eq_refl eq_refl Hop)
    as (_ & _ & Hcpu & _).
  rewrite Hcpu. vm_compute. reflexivity.
Defined.

(** ** Registers and the cycle counter over a run *)

Section OldRegs.
Context {W : Type}.
Implicit Type e : Old.emu W.

(** No [case] of the switch touches X, Y or the cycle counter, and only LDA
    immediate touches A. *)
Lemma old_switch_regs op e :
  cpu_wf (Old.cpu e) ->
  let c' := Old.cpu (snd (Old.cpu_step_switch op e)) in
  x c' = x (Old.cpu e) /\ y c' = y (Old.cpu e) /\ cycles c' = cycles (Old.cpu e)
  /\ (op <> 0xA9 -> a c' = a (Old.cpu e)).
Proof.
  intros Hwf. cbv zeta.
  destruct (implemented op) eqn:Himpl.
  - apply implemented_cases in Himpl.
    destruct Himpl as [-> | [-> | [-> | [-> | [-> | ->]]]]].
    + rewrite old_switch_brk, old_op_brk by assumption. destruct e; repeat split; reflexivity.
    + rewrite old_switch_jmp_abs, old_op_jmp_abs by assumption.
      destruct e; repeat split; reflexivity.
    + rewrite old_switch_jmp_ind, old_op_jmp_ind by assumption.
      destruct e; repeat split; reflexivity.
    + rewrite old_switch_lda_imm, old_op_lda_imm by assumption.
      destruct e; repeat split; try reflexivity. intros H. contradiction.
    + rewrite old_switch_nop. repeat split; reflexivity.
    + rewrite old_switch_rti, old_op_rti by assumption. destruct e; repeat split; reflexivity.
  - rewrite old_switch_unknown by assumption. repeat split; reflexivity.
Qed.

(** One call: X and Y are kept, and the cycle counter advances by the count
    returned. *)
Lemma old_step_regs e :
  cpu_wf (Old.cpu e) ->
  let r := Old.cpu_step e in
  x (Old.cpu (snd r)) = x (Old.cpu e) /\ y (Old.cpu (snd r)) = y (Old.cpu e)
  /\ cycles (Old.cpu (snd r)) = u64 (cycles (Old.cpu e) + fst r).
Proof.
  intros Hwf. cbv zeta.
  destruct (services_interrupt e) eqn:Hsi.
  - unfold services_interrupt in Hsi. apply orb_true_iff in Hsi.
    destruct Hsi as [Hn | Hi];
      [rewrite old_step_nmi by assumption | rewrite old_step_irq by assumption];
      destruct e; repeat split; reflexivity.
  - rewrite old_step_switch by assumption. cbn [fst snd].
    destruct (old_switch_regs (fetched_opcode e) (after_fetch e) (after_fetch_wf e Hwf))
      as (Hx & Hy & Hc & _).
    unfold add_cycles. cbn [Old.cpu Old.with_cpu set_cycles x y cycles].
    rewrite Hx, Hy, Hc. destruct e; repeat split; reflexivity.
Qed.

Lemma steps_S n e :
  steps (S n) e
  = (fst (Old.cpu_step e) :: fst (steps n (snd (Old.cpu_step e))),
     snd (steps n (snd (Old.cpu_step e)))).
Proof. reflexivity. Qed.

End OldRegs.

(** The cycle counter is the sum of what [cpu_step] returned: after any run of
    calls it equals its initial value plus the counts returned, modulo 2^64,
    and every count returned is one of 2, 3, 5, 6 and 7. *)
Theorem cycle_counter_accumulates :
  forall (W : Type) (n : nat) (e : Old.emu W),
    cpu_wf (Old.cpu e) ->
    cycles (Old.cpu (snd (steps n e)))
    = u64 (cycles (Old.cpu e) + total_cycles (fst (steps n e)))
    /\ Forall (fun k => In k [2; 3; 5; 6; 7]) (fst (steps n e)).
Proof.
  intros W n. induction n as [| n IH]; intros e Hwf.
  - cbn. rewrite Z.add_0_r, u64_id by (unfold cpu_wf in Hwf; tauto). auto.
  - rewrite steps_S. cbn [fst snd total_cycles fold_right].
    destruct (IH (snd (Old.cpu_step e)) (old_step_wf e Hwf)) as [Hc Hall].
    destruct (old_step_regs e Hwf) as (_ & _ & Hstep).
    split.
    + rewrite Hc, Hstep. apply u64_add_add.
    + apply Forall_cons; [| exact Hall].
      destruct (services_interrupt e) eqn:Hsi.
      * unfold services_interrupt in Hsi. apply orb_true_iff in Hsi.
        destruct Hsi as [Hn | Hi];
          [rewrite old_step_nmi by assumption | rewrite old_step_irq by assumption];
          cbn; tauto.
      * destruct (old_step_instr_post e Hwf Hsi) as (_ & Hin & _). exact Hin.
Qed.

Lemma cycle_counter_accumulates_witness :
  cpu_wf (Old.cpu both_pending)
  /\ fst (steps 3 both_pending) = [7; 6; 7]
  /\ cycles (Old.cpu (snd (steps 3 both_pending))) = 20.
Proof.
  assert (Hwf : cpu_wf (Old.cpu both_pending)) by (apply cpu_wfb_spec; reflexivity).
  assert (Hrun : fst (steps 3 both_pending) = [7; 6; 7]) by (vm_compute; reflexivity).
  split; [exact Hwf |]. split; [exact Hrun |].
  rewrite (proj1 (cycle_counter_accumulates ram 3 both_pending Hwf)), Hrun.
  vm_compute. reflexivity.
Defined.

(** What [cpu_step] never changes: over any run of calls the X and Y
    registers and the two memory callbacks stay as they were (the old core
    has no instruction that writes X or Y); and a single call changes A only
    when it executes LDA immediate. *)
Theorem steps_keep_index_registers :
  forall (W : Type) (n : nat) (e : Old.emu W),
    cpu_wf (Old.cpu e) ->
    (x (Old.cpu (snd (steps n e))) = x (Old.cpu e)
     /\ y (Old.cpu (snd (steps n e))) = y (Old.cpu e)
     /\ Old.memory_read (snd (steps n e)) = Old.memory_read e
     /\ Old.memory_write (snd (steps n e)) = Old.memory_write e)
    /\ (services_interrupt e = true \/ fetched_opcode e <> 0xA9 ->
          a (Old.cpu (snd (Old.cpu_step e))) = a (Old.cpu e)).
Proof.
  intros W n e Hwf. split.
  - revert e Hwf. induction n as [| n IH]; intros e Hwf.
    + repeat split; reflexivity.
    + rewrite steps_S. cbn [snd].
      destruct (IH (snd (Old.cpu_step e)) (old_step_wf e Hwf)) as (Hx & Hy & Hr & Hw).
      destruct (old_step_regs e Hwf) as (Hx1 & Hy1 & _).
      destruct (old_step_callbacks e Hwf) as (Hr1 & Hw1).
      repeat split; congruence.
  - intros Hcase. destruct (services_interrupt e) eqn:Hsi.
    + unfold services_interrupt in Hsi. apply orb_true_iff in Hsi.
      destruct Hsi as [Hn | Hi];
        [rewrite old_step_nmi by assumption | rewrite old_step_irq by assumption];
        destruct e; reflexivity.
    + destruct Hcase as [Hcase | Hop]; [discriminate |].
      rewrite old_step_switch by assumption. cbn [snd].
      destruct (old_switch_regs (fetched_opcode e) (after_fetch e) (after_fetch_wf e Hwf))
        as (_ & _ & _ & Ha).
      unfold add_cycles. cbn [Old.cpu Old.with_cpu set_cycles a].
      rewrite (Ha Hop). destruct e; reflexivity.
Qed.

Lemma steps_keep_index_registers_witness :
  cpu_wf (Old.cpu ldx_start)
  /\ x (Old.cpu (snd (steps 1 ldx_start))) = 0x55.
Proof.
  assert (Hwf : cpu_wf (Old.cpu ldx_start)) by (apply cpu_wfb_spec; reflexivity).
  split; [exact Hwf |].
  destruct (steps_keep_index_registers ram 1 ldx_start Hwf) as ((Hx & _) & _).
  rewrite Hx. reflexivity.
Defined.

(** ** A core with no read callback *)

Section Unattached.
Context {W : Type}.
Implicit Type e : Old.emu W.

Lemma unattached_step e :
  cpu_wf (Old.cpu e) -> Old.memory_read e = None -> services_interrupt e = false ->
  Old.cpu_step e
  = (2, Old.with_cpu
          (set_cycles (u64 (cycles (Old.cpu e) + 2))
             (set_pc (u16 (pc (Old.cpu e) + 1)) (Old.cpu e))) e).
Proof.
  intros Hwf Hrd Hsi.
  assert (Hop : fetched_opcode e = 0xFF) by (unfold fetched_opcode; rewrite Hrd; reflexivity).
  rewrite old_step_unknown; [| assumption .. | rewrite Hop; reflexivity].
  destruct e as [c irq nmi rd wr w]. cbn [Old.memory_read] in Hrd. subst rd. reflexivity.
Qed.

End Unattached.

(** With no read callback every read returns 0xFF: [cpu_reset] loads the
    program counter with 0xFFFF, and as long as no interrupt is pending every
    call of [cpu_step] executes the unknown opcode 0xFF, returning 2 and
    moving the program counter by one (wrapping at 0xFFFF); the host world and
    all other registers are never touched. *)
Theorem unattached_bus_free_run :
  forall (W : Type) (n : nat) (e : Old.emu W),
    cpu_wf (Old.cpu e) ->
    Old.memory_read e = None ->
    c_true (Old.nmi_pending e) = false ->
    c_true (Old.irq_pending e) = false ->
    steps n e
    = (repeat 2 n,
       Old.with_cpu
         (set_cycles (u64 (cycles (Old.cpu e) + 2 * Z.of_nat n))
            (set_pc (u16 (pc (Old.cpu e) + Z.of_nat n)) (Old.cpu e))) e)
    /\ pc (Old.cpu (snd (Old.cpu_reset e))) = 0xFFFF.
Proof.
  intros W n e Hwf Hrd Hn Hi. split.
  - revert e Hwf Hrd Hn Hi. induction n as [| n IH]; intros e Hwf Hrd Hn Hi.
    + cbn [steps repeat Z.of_nat]. rewrite Z.mul_0_r, !Z.add_0_r.
      destruct e as [[p s ra rx ry st cy] irq nmi rd wr w]. open_wf Hwf.
      cbn [Old.cpu Old.with_cpu set_cycles set_pc pc sp a x y status cycles].
      rewrite u64_id, u16_id by assumption. reflexivity.
    + assert (Hsi : services_interrupt e = false).
      { unfold services_interrupt, services_nmi, services_irq. rewrite Hn, Hi. reflexivity. }
      rewrite steps_S, (unattached_step e Hwf Hrd Hsi). cbn [fst snd].
      rewrite IH.
      * cbn [fst snd repeat]. f_equal.
        destruct e as [[p s ra rx ry st cy] irq nmi rd wr w].
        cbn [Old.cpu Old.with_cpu set_cycles set_pc pc sp a x y status cycles].
        rewrite u16_succ, u64_add_add.
        replace (p + 1 + Z.of_nat n) with (p + Z.of_nat (S n)) by lia.
        replace (2 + 2 * Z.of_nat n) with (2 * Z.of_nat (S n)) by lia.
        reflexivity.
      * pose proof (old_step_wf e Hwf) as Hw'.
        rewrite (unattached_step e Hwf Hrd Hsi) in Hw'. exact Hw'.
      * destruct e; exact Hrd.
      * destruct e; exact Hn.
      * destruct e; exact Hi.
  - destruct e as [c irq nmi rd wr w]. cbn [Old.memory_read] in Hrd. subst rd. reflexivity.
Qed.

Lemma unattached_bus_free_run_witness :
  cpu_wf (Old.cpu unattached_start)
  /\ fst (steps 3 unattached_start) = [2; 2; 2]
  /\ pc (Old.cpu (snd (steps 3 unattached_start))) = 0x0203.
Proof.
  assert (Hwf : cpu_wf (Old.cpu unattached_start)) by (apply cpu_wfb_spec; reflexivity).
  split; [exact Hwf |].
  rewrite (proj1 (unattached_bus_free_run unit 3 unattached_start Hwf eq_refl eq_refl eq_refl)).
  split; reflexivity.
Defined.

(** ** The life of the latches *)






(** ** Snapshots of the two cores *)

(** What [cpu_get_state] of fake6502.c can report: every field within its C
    type, and a cycle counter below 2^32 whatever the core has counted. *)
Theorem wrap_get_state_range :
  forall (W : Type) (e : Wrap.emu W) (s0 : cpu_state_t),
  exists s,
    Wrap.cpu_get_state (Some s0) e = (Some s, e)
    /\ cpu_wf s /\ cycles s < 4294967296.
Proof.
  intros W e s0. eexists. split; [reflexivity |].
  unfold cpu_wf. cbn [pc sp a x y status cycles].
  pose proof (u32_range (Wrap.core_clockticks (Wrap.core e))) as Hc.
  rewrite (u64_id (u32 _)) by lia.
  repeat split; try apply u16_range; try apply u8_range; lia.
Qed.

(** Snapshot laws, for both cores: [cpu_get_state] changes nothing;
    [cpu_set_state] overwrites every register, so the last of two calls wins,
    and it leaves the latches, the callbacks and the host world alone, so a
    pending interrupt survives it; storing back the snapshot just taken
    changes nothing (in fake6502.c, for a core whose registers are within
    their types). *)
Theorem snapshot_laws :
  forall (W : Type) (eo : Old.emu W) (ew : Wrap.emu W) (s0 s1 s2 : cpu_state_t),
    core_wf (Wrap.core ew) ->
    (snd (Old.cpu_get_state (Some s0) eo) = eo
     /\ snd (Old.cpu_set_state (Some s2) (snd (Old.cpu_set_state (Some s1) eo)))
        = snd (Old.cpu_set_state (Some s2) eo)
     /\ snd (Old.cpu_set_state (Some s1) eo) = Old.with_cpu s1 eo
     /\ snd (Old.cpu_set_state (fst (Old.cpu_get_state (Some s0) eo)) eo) = eo)
    /\ (snd (Wrap.cpu_get_state (Some s0) ew) = ew
        /\ snd (Wrap.cpu_set_state (Some s2) (snd (Wrap.cpu_set_state (Some s1) ew)))
           = snd (Wrap.cpu_set_state (Some s2) ew)
        /\ snd (Wrap.cpu_set_state (Some s1) ew)
           = Wrap.with_core (Wrap.core (snd (Wrap.cpu_set_state (Some s1) ew))) ew
        /\ snd (Wrap.cpu_set_state (fst (Wrap.cpu_get_state (Some s0) ew)) ew) = ew).
Proof.
  intros W eo ew s0 s1 s2 Hwf. split.
  - destruct eo. repeat split; reflexivity.
  - destruct ew as [[p s ra rx ry st cy] irq nmi rd wr w].
    unfold core_wf in Hwf.
    cbn [Wrap.core Wrap.core_pc Wrap.core_sp Wrap.core_a Wrap.core_x Wrap.core_y
         Wrap.core_status Wrap.core_clockticks] in Hwf.
    destruct Hwf as (Hpc & Hsp & Ha & Hx & Hy & Hst & Hcy).
    repeat split; try reflexivity.
    run_wrap.
    rewrite !u16_u16, !u8_u8, (u16_id p), (u8_id s), (u8_id ra), (u8_id rx), (u8_id ry),
      (u8_id st) by assumption.
    rewrite (u32_id cy) by assumption.
    rewrite (u64_id cy) by lia. rewrite (u32_id cy) by assumption.
    reflexivity.
Qed.

Lemma snapshot_laws_witness :
  core_wf (Wrap.core wrap_running)
  /\ Wrap.irq_pending
       (snd (Wrap.cpu_set_state (Some long_run_state) wrap_running)) = 1
  /\ snd (Wrap.cpu_set_state (fst (Wrap.cpu_get_state (Some idle_cpu) wrap_running))
            wrap_running) = wrap_running.
Proof.
  assert (Hwf : core_wf (Wrap.core wrap_running)) by (unfold core_wf; cbn; lia).
  split; [exact Hwf |].
  destruct (snapshot_laws ram both_pending wrap_running idle_cpu long_run_state idle_cpu Hwf)
    as (_ & _ & _ & Hframe & Hid).
  split; [rewrite Hframe; reflexivity | exact Hid].
Defined.

(** ** The addon's SetState *)

(** [SetState] of fake6502_addon.cc over the old core is a partial update:
    a key the object lacks keeps the current value of its field, a key it has
    stores the number converted to the field's type (so the program counter is
    taken modulo 2^16, the 8-bit registers modulo 256, and a cycle count is
    always below 2^32); the latches, the callbacks and the host world are not
    touched.  Without an object argument it throws and changes nothing. *)
Theorem addon_set_state_partial_update :
  forall (W : Type) (e : Old.emu W) (local : cpu_state_t) (obj : Addon.js_state),
    let c := Old.cpu e in
    Addon.SetState Old.cpu_get_state Old.cpu_set_state local (Some obj) e
    = (Addon.Returned,
       Old.with_cpu
         (mk_cpu (js_field (Addon.js_pc obj) u16 (pc c))
                 (js_field (Addon.js_sp obj) u8 (sp c))
                 (js_field (Addon.js_a obj) u8 (a c))
                 (js_field (Addon.js_x obj) u8 (x c))
                 (js_field (Addon.js_y obj) u8 (y c))
                 (js_field (Addon.js_status obj) u8 (status c))
                 (js_field (Addon.js_cycles obj) u64 (cycles c))) e)
    /\ (forall v, Addon.js_cycles obj = Some v ->
          js_field (Addon.js_cycles obj) u64 (cycles c) < 4294967296)
    /\ Addon.SetState Old.cpu_get_state Old.cpu_set_state local None e
       = (Addon.ThrewTypeError, e).
Proof.
  intros W e local obj c. subst c. split; [| split].
  - destruct e as [[p s ra rx ry st cy] irq nmi rd wr w].
    destruct obj as [op os oa ox oy ost oc].
    unfold Addon.SetState, Old.cpu_get_state, Old.cpu_set_state, Old.upd_cpu,
      bind, ret, gets, modify.
    cbn [fst snd Old.cpu Old.with_cpu Addon.js_pc Addon.js_sp Addon.js_a Addon.js_x
         Addon.js_y Addon.js_status Addon.js_cycles pc sp a x y status cycles].
    destruct op, os, oa, ox, oy, ost, oc; reflexivity.
  - intros v Hv. rewrite Hv. unfold js_field.
    pose proof (u32_range v). rewrite u64_id by lia. lia.
  - reflexivity.
Qed.

(** Over fake6502.c the same call with an object that has none of the seven
    keys changes nothing, for a core whose registers are within their
    types. *)
Theorem addon_set_state_empty_object :
  forall (W : Type) (e : Wrap.emu W) (local : cpu_state_t),
    core_wf (Wrap.core e) ->
    Addon.SetState Wrap.cpu_get_state Wrap.cpu_set_state local
      (Some (Addon.mk_js_state None None None None None None None)) e
    = (Addon.Returned, e).
Proof.
  intros W e local Hwf.
  destruct e as [[p s ra rx ry st cy] irq nmi rd wr w].
  unfold core_wf in Hwf.
  cbn [Wrap.core Wrap.core_pc Wrap.core_sp Wrap.core_a Wrap.core_x Wrap.core_y
       Wrap.core_status Wrap.core_clockticks] in Hwf.
  destruct Hwf as (Hpc & Hsp & Ha & Hx & Hy & Hst & Hcy).
  unfold Addon.SetState, Addon.assign.
  cbn [Addon.js_pc Addon.js_sp Addon.js_a Addon.js_x Addon.js_y Addon.js_status
       Addon.js_cycles].
  run_wrap.
  rewrite (u16_id p), (u8_id s), (u8_id ra), (u8_id rx), (u8_id ry), (u8_id st),
    (u32_id cy) by assumption.
  rewrite (u64_id cy) by lia.
  rewrite (u16_id p), (u8_id s), (u8_id ra), (u8_id rx), (u8_id ry), (u8_id st),
    (u32_id cy) by assumption.
  reflexivity.
Qed.

Lemma addon_set_state_empty_object_witness :
  core_wf (Wrap.core wrap_running)
  /\ Addon.SetState Wrap.cpu_get_state Wrap.cpu_set_state idle_cpu
       (Some (Addon.mk_js_state None None None None None None None)) wrap_running
     = (Addon.Returned, wrap_running).
Proof.
  assert (Hwf : core_wf (Wrap.core wrap_running)) by (unfold core_wf; cbn; lia).
  split; [exact Hwf |].
  apply (addon_set_state_empty_object ram wrap_running idle_cpu Hwf).
Defined.

(** ** JMP absolute *)

Section JmpSelf.
Context {W : Type} (peek : W -> Z -> Z).
Implicit Type e : Old.emu W.

Lemma jmp_self_step e :
  on_memory_bus peek e -> cpu_wf (Old.cpu e) -> services_interrupt e = false ->
  let p := pc (Old.cpu e) in
  peek8 peek (Old.host e) p = 0x4C ->
  peek8 peek (Old.host e) (u16 (p + 1)) = lo_byte p ->
  peek8 peek (Old.host e) (u16 (p + 2)) = hi_byte p ->
  Old.cpu_step e
  = (3, Old.with_cpu (set_cycles (u64 (cycles (Old.cpu e) + 3)) (Old.cpu e)) e).
Proof.
  intros Hbus Hwf Hsi p Hop Hlo Hhi.
  assert (Hf : fetched_opcode e = 0x4C) by (rewrite (fetched_opcode_mem peek) by assumption; exact Hop).
  rewrite old_step_jmp_abs by assumption. cbv zeta.
  rewrite (jump_via_mem peek) by (apply after_fetch_on_bus, Hbus).
  rewrite (after_fetch_mem peek) by assumption.
  subst p. destruct e as [[p s ra rx ry st cy] irq nmi rd wr w]. open_wf Hwf.
  cbn [Old.cpu Old.host pc] in Hlo, Hhi. simpl_old.
  rewrite u16_succ. replace (p + 1 + 1) with (p + 2) by lia.
  rewrite Hlo, Hhi, word_of_bytes. reflexivity.
Qed.

End JmpSelf.

(** A jump to itself is a stable idle loop: on a memory bus holding JMP
    absolute at the program counter with that same address as operand, and
    with no interrupt pending, every call of [cpu_step] returns 3 and changes
    nothing but the cycle counter, which advances by 3 per call. *)
Theorem jmp_self_idle_loop :
  forall (W : Type) (peek : W -> Z -> Z) (n : nat) (e : Old.emu W),
    on_memory_bus peek e ->
    cpu_wf (Old.cpu e) ->
    c_true (Old.nmi_pending e) = false ->
    c_true (Old.irq_pending e) = false ->
    peek8 peek (Old.host e) (pc (Old.cpu e)) = 0x4C ->
    peek8 peek (Old.host e) (u16 (pc (Old.cpu e) + 1)) = lo_byte (pc (Old.cpu e)) ->
    peek8 peek (Old.host e) (u16 (pc (Old.cpu e) + 2)) = hi_byte (pc (Old.cpu e)) ->
    steps n e
    = (repeat 3 n,
       Old.with_cpu (set_cycles (u64 (cycles (Old.cpu e) + 3 * Z.of_nat n)) (Old.cpu e)) e).
Proof.
  intros W peek n. induction n as [| n IH]; intros e Hbus Hwf Hn Hi Hop Hlo Hhi.
  - cbn [steps repeat Z.of_nat]. rewrite Z.mul_0_r, Z.add_0_r.
    destruct e as [[p s ra rx ry st cy] irq nmi rd wr w]. open_wf Hwf.
    cbn [Old.cpu Old.with_cpu set_cycles pc sp a x y status cycles].
    rewrite u64_id by assumption. reflexivity.
  - assert (Hsi : services_interrupt e = false).
    { unfold services_interrupt, services_nmi, services_irq. rewrite Hn, Hi. reflexivity. }
    pose proof (jmp_self_step peek e Hbus Hwf Hsi Hop Hlo Hhi) as Hstep.
    rewrite steps_S, Hstep. cbn [fst snd].
    rewrite IH.
    + cbn [fst snd repeat]. f_equal.
      destruct e as [[p s ra rx ry st cy] irq nmi rd wr w].
      cbn [Old.cpu Old.with_cpu set_cycles pc sp a x y status cycles].
      rewrite u64_add_add.
      replace (3 + 3 * Z.of_nat n) with (3 * Z.of_nat (S n)) by lia. reflexivity.
    + apply (on_memory_bus_frame peek e); [destruct e; reflexivity .. | exact Hbus].
    + pose proof (old_step_wf e Hwf) as Hw'. rewrite Hstep in Hw'. exact Hw'.
    + destruct e; exact Hn.
    + destruct e; exact Hi.
    + destruct e; exact Hop.
    + destruct e; exact Hlo.
    + destruct e; exact Hhi.
Qed.

Lemma jmp_self_idle_loop_witness :
  on_memory_bus ram_get jmp_self_start
  /\ cpu_wf (Old.cpu jmp_self_start)
  /\ fst (steps 4 jmp_self_start) = [3; 3; 3; 3]
  /\ Old.cpu (snd (steps 4 jmp_self_start)) = set_cycles 12 (Old.cpu jmp_self_start).
Proof.
  assert (Hbus : on_memory_bus ram_get jmp_self_start) by apply old_boot_on_memory_bus.
  assert (Hwf : cpu_wf (Old.cpu jmp_self_start)) by (apply cpu_wfb_spec; reflexivity).
  split; [exact Hbus |]. split; [exact Hwf |].
  rewrite (jmp_self_idle_loop ram ram_get 4 jmp_self_start Hbus Hwf
             eq_refl eq_refl eq_refl eq_refl eq_refl).
  split; reflexivity.
Defined.

(** ** Detaching the bus *)

(** [cpu_set_memory_callbacks] replaces the two callbacks and nothing else,
    and a null callback falls back to the default: after a null read callback
    is installed every [read6502] returns 0xFF, after a null write callback
    every [write6502] is dropped, and neither touches the host world. *)
Theorem detached_bus_defaults :
  forall (W : Type) (e : Old.emu W) (rd : option (read_func_t W))
         (wr : option (write_func_t W)) (addr value : Z),
    let e1 := snd (Old.cpu_set_memory_callbacks rd wr e) in
    (Old.cpu e1 = Old.cpu e /\ Old.irq_pending e1 = Old.irq_pending e
     /\ Old.nmi_pending e1 = Old.nmi_pending e /\ Old.host e1 = Old.host e
     /\ Old.memory_read e1 = rd /\ Old.memory_write e1 = wr)
    /\ (rd = None -> Old.read6502 addr e1 = (0xFF, e1))
    /\ (wr = None -> Old.write6502 addr value e1 = (tt, e1))
    /\ Old.read6502 addr e1
       = (fst (bus_read rd (u16 addr) (Old.host e)),
          Old.with_host (snd (bus_read rd (u16 addr) (Old.host e))) e1)
    /\ Old.write6502 addr value e1
       = (tt, Old.with_host (bus_write wr (u16 addr) (u8 value) (Old.host e)) e1).
Proof.
  intros W e rd wr addr value e1. subst e1.
  destruct e as [c irq nmi rd0 wr0 w].
  split; [repeat split; reflexivity |].
  split; [intros ->; reflexivity |].
  split; [intros ->; reflexivity |].
  destruct rd, wr; split; reflexivity.
Qed.
